(** * Rayman 2 bingo goals service: lookup and matching logic

    A shallow embedding of the two versions of the service: the loader of
    [src/index.js], and the extended server with its loader, [searchGoals],
    [formatGoal] and the routes [/goal], [/goals],
    [/goals/difficulty/:level] and [/goal/random].  It is followed by the
    properties of the loader, the query resolver, the difficulty filter and
    the request handlers.

    JavaScript strings are sequences of UTF-16 code units; they are modelled
    as lists of [N].  [String.prototype.trim], [includes], [split] and
    [substring] are written out on code units.  [toLowerCase] is the
    runtime's Unicode mapping: it is a parameter of the development, and
    every theorem holds for whatever function the runtime provides. *)

From Stdlib Require Import List NArith ZArith QArith Qround Bool Lia.
From Stdlib Require Import Strings.String Strings.Ascii.
From Stdlib Require Import Sorting.Permutation Sorting.Sorted.
Import ListNotations.

Local Open Scope N_scope.
Local Open Scope list_scope.

(** ** Strings *)

Definition codeunit := N.
Definition jsstring := list codeunit.

(** A string literal of the source whose characters are all in the Basic
    Latin block. *)
Definition js (s : string) : jsstring :=
  List.map N_of_ascii (list_ascii_of_string s).

Definition isEmpty (s : jsstring) : bool :=
  match s with [] => true | _ :: _ => false end.

Fixpoint streq (a b : jsstring) : bool :=
  match a, b with
  | [], [] => true
  | x :: a', y :: b' => (x =? y) && streq a' b'
  | _, _ => false
  end.

(** [WhiteSpace] and [LineTerminator] of ECMA-262, the code units removed by
    [String.prototype.trim]. *)
Definition isWhiteSpace (c : codeunit) : bool :=
  (c =? 9) || (c =? 10) || (c =? 11) || (c =? 12) || (c =? 13) || (c =? 32)
  || (c =? 160) || (c =? 5760) || ((8192 <=? c) && (c <=? 8202))
  || (c =? 8232) || (c =? 8233) || (c =? 8239) || (c =? 8287)
  || (c =? 12288) || (c =? 65279).

Fixpoint trimStart (s : jsstring) : jsstring :=
  match s with
  | [] => []
  | c :: s' => if isWhiteSpace c then trimStart s' else s
  end.

Definition trimEnd (s : jsstring) : jsstring := rev (trimStart (rev s)).

Definition trim (s : jsstring) : jsstring := trimEnd (trimStart s).

Fixpoint startsWith (s t : jsstring) : bool :=
  match t, s with
  | [], _ => true
  | _ :: _, [] => false
  | y :: t', x :: s' => (x =? y) && startsWith s' t'
  end.

(** [s.includes(t)] *)
Fixpoint includes (s t : jsstring) : bool :=
  startsWith s t ||
  match s with
  | [] => false
  | _ :: s' => includes s' t
  end.

(** [s.split(sep)] for a separator of one code unit. *)
Fixpoint split (sep : codeunit) (s : jsstring) : list jsstring :=
  match s with
  | [] => [[]]
  | c :: s' =>
      if c =? sep then [] :: split sep s'
      else match split sep s' with
           | [] => [[c]]
           | w :: ws => (c :: w) :: ws
           end
  end.

(** The pieces of a split put back together around the separator. *)
Fixpoint glue (sep : codeunit) (ws : list jsstring) : jsstring :=
  match ws with
  | [] => []
  | [w] => w
  | w :: ws' => w ++ sep :: glue sep ws'
  end.

(** [s.substring(0, n)] *)
Definition substring0 (n : nat) (s : jsstring) : jsstring := firstn n s.

Definition SPACE : codeunit := 32.
Definition TAB : codeunit := 9.
Definition QUOTE : codeunit := 34.
Definition STAR : codeunit := 9733.

(** The lowercase mapping on the Basic Latin block.  It agrees with
    [String.prototype.toLowerCase] on every string whose code units are
    below 128, which is all that the concrete examples below use. *)
Definition asciiLower (s : jsstring) : jsstring :=
  List.map (fun c => if (65 <=? c) && (c <=? 90) then c + 32 else c) s.

(** The spec's wording for the token rule, used only to state the claim as
    it is written: tokens are the maximal runs of non-whitespace code
    units. *)
Fixpoint whitespaceTokensAux (cur : jsstring) (s : jsstring) : list jsstring :=
  match s with
  | [] => if isEmpty cur then [] else [rev cur]
  | c :: s' =>
      if isWhiteSpace c
      then (if isEmpty cur then [] else [rev cur]) ++ whitespaceTokensAux [] s'
      else whitespaceTokensAux (c :: cur) s'
  end.

Definition whitespaceTokens (s : jsstring) : list jsstring :=
  whitespaceTokensAux [] s.

(** ** Goal records and CSV rows *)

Record Goal := mkGoal {
  name : jsstring;
  description : jsstring;
  levels : jsstring;
  difficulty : jsstring;
  videoLink : jsstring
}.

(** A row object emitted by the CSV parser: one optional cell per header the
    loader reads ([None] is [undefined], a column the row does not have). *)
Record Row := mkRow {
  Name : option jsstring;
  Description : option jsstring;
  Levels : option jsstring;       (* row["Level(s)"] *)
  Difficulty : option jsstring;
  VideoLink : option jsstring     (* row["Video Link"] *)
}.

(** ** Plain objects used as maps

    [const goals = {}] is an ordinary object.  Its own properties are kept
    in creation order; overwriting a key keeps its place.  Enumeration
    ([Object.entries], [Object.values]) lists array-index keys first, in
    ascending numeric order, then the other keys in creation order.  Reading
    [goals[k]] falls back to the prototype chain when [k] is not an own
    key. *)

Definition Props (V : Type) := list (jsstring * V).

Fixpoint lookupOwn {V : Type} (k : jsstring) (ps : Props V) : option V :=
  match ps with
  | [] => None
  | (k', v) :: ps' => if streq k' k then Some v else lookupOwn k ps'
  end.

Fixpoint setOwn {V : Type} (k : jsstring) (v : V) (ps : Props V) : Props V :=
  match ps with
  | [] => [(k, v)]
  | (k', v') :: ps' =>
      if streq k' k then (k', v) :: ps' else (k', v') :: setOwn k v ps'
  end.

Definition isDigit (c : codeunit) : bool := (48 <=? c) && (c <=? 57).

Definition digitsValue (s : jsstring) : N :=
  fold_left (fun acc c => 10 * acc + (c - 48)) s 0.

(** An array index: the canonical decimal form of an integer below
    2^32 - 1. *)
Definition arrayIndex (k : jsstring) : option N :=
  match k with
  | [] => None
  | c :: rest =>
      if forallb isDigit k && (negb (c =? 48) || isEmpty rest)
      then (if digitsValue k <? 4294967295 then Some (digitsValue k) else None)
      else None
  end.

Definition isArrayIndex (k : jsstring) : bool :=
  match arrayIndex k with Some _ => true | None => false end.

Fixpoint insertIndexed {V : Type} (i : N) (e : jsstring * V)
    (l : list (N * (jsstring * V))) : list (N * (jsstring * V)) :=
  match l with
  | [] => [(i, e)]
  | (j, e') :: l' =>
      if i <? j then (i, e) :: l else (j, e') :: insertIndexed i e l'
  end.

Fixpoint indexedProps {V : Type} (ps : Props V) : list (N * (jsstring * V)) :=
  match ps with
  | [] => []
  | e :: ps' =>
      match arrayIndex (fst e) with
      | Some i => insertIndexed i e (indexedProps ps')
      | None => indexedProps ps'
      end
  end.

(** The order of [OrdinaryOwnPropertyKeys]. *)
Definition ownPropertyOrder {V : Type} (ps : Props V) : Props V :=
  List.map snd (indexedProps ps)
  ++ filter (fun e => negb (isArrayIndex (fst e))) ps.

(** Values that a property read on the goals object can produce. *)
Inductive JSValue :=
| VUndefined
| VString (s : jsstring)
| VGoal (g : Goal)
| VObjectPrototype
| VBuiltin (member : jsstring).

Definition truthy (v : JSValue) : bool :=
  match v with
  | VUndefined => false
  | VString s => negb (isEmpty s)
  | _ => true
  end.

(** The goals object: its own properties and, when the [__proto__] setter
    has replaced the default prototype, the record that now stands between
    the object and [Object.prototype]. *)
Record GoalsObject := mkGoals {
  own : Props Goal;
  proto : option Goal
}.

Definition emptyObject : GoalsObject := {| own := []; proto := None |}.

Definition PROTO : jsstring := js "__proto__".

(** The function-valued members of [Object.prototype]. *)
Definition objectPrototypeMethods : list jsstring :=
  [ js "constructor"; js "__defineGetter__"; js "__defineSetter__";
    js "hasOwnProperty"; js "__lookupGetter__"; js "__lookupSetter__";
    js "isPrototypeOf"; js "propertyIsEnumerable"; js "toString";
    js "valueOf"; js "toLocaleString" ].

(** A read that reaches [Object.prototype]; [parent] is the prototype of the
    object the read started from, which the [__proto__] getter returns. *)
Definition objectPrototypeGet (parent : JSValue) (k : jsstring) : JSValue :=
  if streq k PROTO then parent
  else if existsb (streq k) objectPrototypeMethods then VBuiltin k
  else VUndefined.

Definition goalField (g : Goal) (k : jsstring) : option jsstring :=
  if streq k (js "name") then Some (name g)
  else if streq k (js "description") then Some (description g)
  else if streq k (js "levels") then Some (levels g)
  else if streq k (js "difficulty") then Some (difficulty g)
  else if streq k (js "videoLink") then Some (videoLink g)
  else None.

(** What [goals[k]] finds on the prototype chain when [k] is not an own
    key. *)
Definition inherited (goals : GoalsObject) (k : jsstring) : JSValue :=
  match proto goals with
  | Some p =>
      match goalField p k with
      | Some s => VString s
      | None => objectPrototypeGet (VGoal p) k
      end
  | None => objectPrototypeGet VObjectPrototype k
  end.

(** [goals[k]] *)
Definition get (goals : GoalsObject) (k : jsstring) : JSValue :=
  match lookupOwn k (own goals) with
  | Some g => VGoal g
  | None => inherited goals k
  end.

(** [goals[k] = g]: an own key is overwritten; otherwise [__proto__] reaches
    the setter of [Object.prototype], which re-points the prototype and
    creates no property; any other key becomes a new own property. *)
Definition assign (goals : GoalsObject) (k : jsstring) (g : Goal)
  : GoalsObject :=
  match lookupOwn k (own goals) with
  | Some _ => {| own := setOwn k g (own goals); proto := proto goals |}
  | None =>
      if streq k PROTO
      then {| own := own goals; proto := Some g |}
      else {| own := setOwn k g (own goals); proto := proto goals |}
  end.

(** [Object.entries(goals)], [Object.values(goals)], [Object.keys(goals)] *)
Definition ObjectEntries (goals : GoalsObject) : list (jsstring * Goal) :=
  ownPropertyOrder (own goals).

Definition ObjectValues (goals : GoalsObject) : list Goal :=
  List.map snd (ObjectEntries goals).

Definition ObjectKeys (goals : GoalsObject) : list jsstring :=
  List.map fst (ObjectEntries goals).

(** The read [goals[k]] seen as a lookup in a mapping from keys to goal
    records. *)
Definition getGoal (goals : GoalsObject) (k : jsstring) : option Goal :=
  match get goals k with
  | VGoal g => Some g
  | _ => None
  end.

(** ** CSV cells *)

(** [row.X] used as a condition: [undefined] and the empty string are
    falsy. *)
Definition truthyCell (c : option jsstring) : bool :=
  match c with
  | Some s => negb (isEmpty s)
  | None => false
  end.

(** The string held by a truthy cell. *)
Definition cell (c : option jsstring) : jsstring :=
  match c with
  | Some s => s
  | None => []
  end.

(** [row.X ? row.X.trim() : ""] *)
Definition trimmedOrEmpty (c : option jsstring) : jsstring :=
  if truthyCell c then trim (cell c) else [].

(** The loader's guard [row.Name && row.Description]. *)
Definition validRow (row : Row) : bool :=
  truthyCell (Name row) && truthyCell (Description row).

(** ** The first version of the loader ([src/index.js]) *)

Module IndexJs.
Section Loader.

Variable toLowerCase : jsstring -> jsstring.

(** [goals[k] = v] for a string [v]: the [__proto__] setter ignores a value
    that is not an object, and no property is created. *)
Definition assign (goals : Props jsstring) (k : jsstring) (v : jsstring)
  : Props jsstring :=
  match lookupOwn k goals with
  | Some _ => setOwn k v goals
  | None => if streq k PROTO then goals else setOwn k v goals
  end.

Definition onData (row : Row) (goals : Props jsstring) : Props jsstring :=
  if validRow row
  then assign goals (toLowerCase (trim (cell (Name row))))
              (trim (cell (Description row)))
  else goals.

Definition feed (rows : list Row) (goals : Props jsstring) : Props jsstring :=
  fold_left (fun goals row => onData row goals) rows goals.

Definition loadGoals (rows : list Row) : Props jsstring :=
  feed rows [].

Definition ObjectKeys (goals : Props jsstring) : list jsstring :=
  List.map fst (ownPropertyOrder goals).

End Loader.
End IndexJs.

(** ** Responses *)

Module Summary.
Record t := mk {
  name : jsstring;
  description : jsstring;
  levels : jsstring;
  difficulty : jsstring;
  hasVideo : bool
}.
End Summary.

Inductive Body :=
| Text (s : jsstring)
| GoalsJson (totalGoals : nat) (goals : list Summary.t)
| DifficultyJson (difficulty : jsstring) (count : nat) (goals : list jsstring).

(** [req.query.name]: absent, a string, or (for a repeated or bracketed
    parameter) an array or object. *)
Inductive QueryParam :=
| QAbsent
| QString (s : jsstring)
| QStructured.

(** An asynchronous route handler as the tree of its effects.  [FetchSheet]
    is the fetch and parse inside [await loadGoals()]: it resumes with the
    parsed rows or with [None] when the fetch or the parser throws.
    [Reject] is an exception that leaves the handler uncaught. *)
Inductive Handler :=
| Return
| Reject
| FetchSheet (k : option (list Row) -> Handler)
| MathRandom (k : Q -> Handler)
| ConsoleError (k : Handler)
| Send (status : nat) (body : Body) (k : Handler).

Inductive Event :=
| EvFetch
| EvRandom
| EvConsoleError
| EvSend (status : nat) (body : Body)
| EvUncaught.

(** One run of a handler against a remote sheet and a random draw. *)
Fixpoint run (h : Handler) (sheet : option (list Row)) (rnd : Q) : list Event :=
  match h with
  | Return => []
  | Reject => [EvUncaught]
  | FetchSheet k => EvFetch :: run (k sheet) sheet rnd
  | MathRandom k => EvRandom :: run (k rnd) sheet rnd
  | ConsoleError k => EvConsoleError :: run k sheet rnd
  | Send status body k => EvSend status body :: run k sheet rnd
  end.

Fixpoint fetches (h : Handler) (sheet : option (list Row)) (rnd : Q) : nat :=
  match h with
  | Return | Reject => 0%nat
  | FetchSheet k => S (fetches (k sheet) sheet rnd)
  | MathRandom k => fetches (k rnd) sheet rnd
  | ConsoleError k => fetches k sheet rnd
  | Send _ _ k => fetches k sheet rnd
  end.

(** What the member reads of [formatGoal] and of the handlers see on a
    value: [None] is [undefined]. *)
Record View := mkView {
  vName : option jsstring;
  vDescription : option jsstring;
  vLevels : option jsstring;
  vDifficulty : option jsstring;
  vVideoLink : option jsstring
}.

Definition noMembers : View := mkView None None None None None.

(** Reading a member of [undefined] throws; a string and
    [Object.prototype] have none of the five members; a function has a
    [name]. *)
Definition view (v : JSValue) : option View :=
  match v with
  | VUndefined => None
  | VGoal g =>
      Some (mkView (Some (name g)) (Some (description g)) (Some (levels g))
                   (Some (difficulty g)) (Some (videoLink g)))
  | VString _ => Some noMembers
  | VObjectPrototype => Some noMembers
  | VBuiltin m =>
      Some (mkView
              (Some (if streq m (js "constructor") then js "Object" else m))
                   None None None None)
  end.

(** [`${x}`] *)
Definition template (x : option jsstring) : jsstring :=
  match x with
  | Some s => s
  | None => js "undefined"
  end.

(** The labels of the optional lines, with the code points that the source
    file holds before each label. *)
Definition LEVELS_LABEL : jsstring :=
  [10; 240; 376; 8220] ++ js " **Level(s):** ".
Definition DIFFICULTY_LABEL : jsstring :=
  [10; 226; 173] ++ js " **Difficulty:** ".
Definition VIDEO_LABEL : jsstring :=
  [10; 240; 376; 381; 165] ++ js " **Video:** ".

Definition appendIf (label : jsstring) (x : option jsstring) : jsstring :=
  if truthyCell x then label ++ template x else [].

(** [formatGoal(goal, includeAll)]; [None] is the [TypeError] of a member
    read on [undefined]. *)
Definition formatGoal (goal : JSValue) (includeAll : bool) : option jsstring :=
  match view goal with
  | None => None
  | Some w =>
      let response :=
        js "**" ++ template (vName w) ++ js "**: "
        ++ template (vDescription w) in
      Some (if includeAll
            then response ++ appendIf LEVELS_LABEL (vLevels w)
                          ++ appendIf DIFFICULTY_LABEL (vDifficulty w)
                          ++ appendIf VIDEO_LABEL (vVideoLink w)
            else response)
  end.

(** [xs.join(sep)]; [undefined] elements print as the empty string. *)
Fixpoint join (sep : jsstring) (xs : list (option jsstring)) : jsstring :=
  match xs with
  | [] => []
  | [x] => cell x
  | x :: rest => cell x ++ sep ++ join sep rest
  end.

(** [xs.map(g => g.name)]; [None] when a member read throws. *)
Fixpoint names (xs : list JSValue) : option (list (option jsstring)) :=
  match xs with
  | [] => Some []
  | x :: rest =>
      match view x, names rest with
      | Some w, Some ns => Some (vName w :: ns)
      | _, _ => None
      end
  end.

(** ** The server *)

Section Server.

Variable toLowerCase : jsstring -> jsstring.

(** The key of a row: [row.Name.trim().toLowerCase()]. *)
Definition rowKey (row : Row) : jsstring :=
  toLowerCase (trim (cell (Name row))).

(** The record built from a row. *)
Definition rowGoal (row : Row) : Goal :=
  {| name := trim (cell (Name row));
     description := trim (cell (Description row));
     levels := trimmedOrEmpty (Levels row);
     difficulty := trimmedOrEmpty (Difficulty row);
     videoLink := trimmedOrEmpty (VideoLink row) |}.

(** The ["data"] callback of the loader. *)
Definition onData (row : Row) (goals : GoalsObject) : GoalsObject :=
  if validRow row
  then let goalName := rowKey row in assign goals goalName (rowGoal row)
  else goals.

(** The rows at which the callback writes under key [k]. *)
Definition writes (k : jsstring) (row : Row) : bool :=
  validRow row && streq (rowKey row) k.

(** The parser calls the ["data"] callback once per row, in order. *)
Definition feed (rows : list Row) (goals : GoalsObject) : GoalsObject :=
  fold_left (fun goals row => onData row goals) rows goals.

(** [loadGoals] on the rows the parser emits. *)
Definition loadGoals (rows : list Row) : GoalsObject :=
  feed rows emptyObject.

(** The condition of the partial-match loop. *)
Definition partialMatch (queryLower key : jsstring) : bool :=
  includes key queryLower
  || forallb (fun word => includes key word) (split SPACE queryLower).

Definition searchGoals (goals : GoalsObject) (query : jsstring)
  : list JSValue :=
  let queryLower := toLowerCase query in
  if truthy (get goals queryLower)
  then [get goals queryLower]
  else List.map (fun e => VGoal (snd e))
         (filter (fun e => partialMatch queryLower (fst e))
                 (ObjectEntries goals)).

(** The [catch] block of the routes, with its message. *)
Definition catch (message : string) : Handler :=
  ConsoleError (Send 500 (Text (js message)) Return).

(** [app.get("/goal", ...)] *)
Definition goalHandler (nameParam : QueryParam) : Handler :=
  match nameParam with
  | QStructured => Reject
  | _ =>
      let raw := match nameParam with QString s => s | _ => [] end in
      let query := trim raw in
      if isEmpty query
      then Send 400 (Text (js "Please provide a goal name (?name=...)")) Return
      else
        FetchSheet (fun sheet =>
          match sheet with
          | None => catch "Error fetching goals from Google Sheets."
          | Some rows =>
              let goals := loadGoals rows in
              let matches := searchGoals goals query in
              match matches with
              | [] =>
                  Send 404 (Text (js "Goal " ++ [QUOTE] ++ raw ++ [QUOTE]
                      ++ js " not found. Check spelling or try another goal."))
                    Return
              | [m] =>
                  match formatGoal m true with
                  | Some formatted => Send 200 (Text formatted) Return
                  | None => catch "Error fetching goals from Google Sheets."
                  end
              | _ =>
                  match names (firstn 5 matches) with
                  | Some ns =>
                      Send 200 (Text (js "Multiple goals found: "
                          ++ join (js ", ") ns
                          ++ js ". Please be more specific!")) Return
                  | None => catch "Error fetching goals from Google Sheets."
                  end
              end
          end)
  end.

Definition summary (goal : Goal) : Summary.t :=
  {| Summary.name := name goal;
     Summary.description := substring0 100 (description goal) ++ js "...";
     Summary.levels := levels goal;
     Summary.difficulty := difficulty goal;
     Summary.hasVideo := negb (isEmpty (videoLink goal)) |}.

(** [app.get("/goals", ...)] *)
Definition goalsHandler : Handler :=
  FetchSheet (fun sheet =>
    match sheet with
    | None => catch "Error fetching goals from Google Sheets."
    | Some rows =>
        let goals := loadGoals rows in
        let goalList := List.map summary (ObjectValues goals) in
        Send 200 (GoalsJson (List.length goalList) goalList) Return
    end).

(** The filter of the difficulty route. *)
Definition filteredGoals (goals : GoalsObject) (difficultyLevel : jsstring)
  : list Goal :=
  filter (fun goal => includes (difficulty goal) difficultyLevel)
         (ObjectValues goals).

(** [app.get("/goals/difficulty/:level", ...)] *)
Definition difficultyHandler (difficultyLevel : jsstring) : Handler :=
  FetchSheet (fun sheet =>
    match sheet with
    | None => catch "Error fetching goals."
    | Some rows =>
        let goals := loadGoals rows in
        let filtered := filteredGoals goals difficultyLevel in
        if (List.length filtered =? 0)%nat
        then Send 404 (Text (js "No goals found with difficulty " ++ [QUOTE]
                 ++ difficultyLevel ++ [QUOTE])) Return
        else
          let goalNames := List.map name filtered in
          Send 200
            (DifficultyJson difficultyLevel (List.length goalNames) goalNames)
            Return
    end).

(** [goalArray[Math.floor(r * goalArray.length)]], the draw of
    [Math.random()] taken as a rational [r]. *)
Definition pick (goalArray : list Goal) (r : Q) : JSValue :=
  let i := Qfloor (r * inject_Z (Z.of_nat (List.length goalArray))) in
  if (i <? 0)%Z then VUndefined
  else match nth_error goalArray (Z.to_nat i) with
       | Some g => VGoal g
       | None => VUndefined
       end.

(** [app.get("/goal/random", ...)] *)
Definition randomHandler : Handler :=
  FetchSheet (fun sheet =>
    match sheet with
    | None => catch "Error fetching goals."
    | Some rows =>
        let goals := loadGoals rows in
        let goalArray := ObjectValues goals in
        MathRandom (fun r =>
          let randomGoal := pick goalArray r in
          match formatGoal randomGoal true with
          | Some formatted => Send 200 (Text formatted) Return
          | None => catch "Error fetching goals."
          end)
    end).

End Server.

(** ** The claim about partial matches, in the spec's words

    The records of the keys, in insertion order, that contain the lowercased
    query or contain every whitespace-separated token of it. *)
Definition specPartialMatches (toLowerCase : jsstring -> jsstring)
    (goals : GoalsObject) (query : jsstring) : list JSValue :=
  let q := toLowerCase query in
  List.map (fun e => VGoal (snd e))
    (filter (fun e => includes (fst e) q
                      || forallb (includes (fst e)) (whitespaceTokens q))
            (own goals)).

(** The two resolver claims as they are worded, for one mapping and one
    query: the exact-match claim normalises the query by lowercasing and
    trimming; the partial-match claim lists [specPartialMatches]. *)
Definition exactMatchAsStated (toLowerCase : jsstring -> jsstring)
    (goals : GoalsObject) (query : jsstring) : Prop :=
  forall g, lookupOwn (trim (toLowerCase query)) (own goals) = Some g ->
            searchGoals toLowerCase goals query = [VGoal g].

Definition partialMatchesAsStated (toLowerCase : jsstring -> jsstring)
    (goals : GoalsObject) (query : jsstring) : Prop :=
  lookupOwn (toLowerCase query) (own goals) = None ->
  searchGoals toLowerCase goals query
  = specPartialMatches toLowerCase goals query.

(** [t] occurs in [s] as a contiguous run of code units. *)
Definition Substring (t s : jsstring) : Prop :=
  exists pre post, s = pre ++ t ++ post.

(** ** Sample data for the concrete checks *)

Module Samples.

Definition goal (n d : string) : Goal := mkGoal (js n) (js d) [] [] [].

Definition row (n d : string) : Row :=
  mkRow (Some (js n)) (Some (js d)) None None None.

Definition starred (n : string) (stars : jsstring) : Goal :=
  mkGoal (js n) (js "d") [] stars [].

(** Keys [foo] and [foo bar]. *)
Definition fooGoals : GoalsObject :=
  mkGoals [(js "foo", goal "Foo" "x"); (js "foo bar", goal "Foo Bar" "y")] None.

(** Key [skip jano]. *)
Definition janoGoals : GoalsObject :=
  mkGoals [(js "skip jano", goal "Skip Jano" "x")] None.

(** Rows that create the keys [a1] and [10], in this order. *)
Definition numberedRows : list Row := [row "A1" "x"; row "10" "y"].

Definition tabQuery : jsstring := js "jano" ++ [TAB] ++ js "skip".

Definition starGoals : GoalsObject :=
  mkGoals [(js "a", starred "A" [STAR]);
           (js "b", starred "B" [STAR; STAR]);
           (js "c", starred "C" []);
           (js "d", starred "D" [STAR; STAR; STAR])] None.

Definition duplicateRows : list Row :=
  [row "Jano Skip" "first"; row "" "no name"; row " jano skip " "second"].

Definition longDescription : jsstring := repeat 97 120.

Definition longRow : Row :=
  mkRow (Some (js "Long")) (Some longDescription) None None
        (Some (js "http://v")).

(** Keys [jano skip glitch] and [flame skip]. *)
Definition glitchGoals : GoalsObject :=
  mkGoals [(js "jano skip glitch", goal "Jano Skip Glitch" "x");
           (js "flame skip", goal "Flame Skip" "y")] None.

Definition blankName : QueryParam := QString [SPACE; TAB; SPACE].

End Samples.

(** ** The compact route and the route of the first version *)

Section MoreRoutes.

Variable toLowerCase : jsstring -> jsstring.

(** The text built for a single match by [/goal/compact]; [None] is the
    [TypeError] of a member read on [undefined]. *)
Definition compactText (goal : JSValue) : option jsstring :=
  match view goal with
  | None => None
  | Some w =>
      Some (template (vName w) ++ js ": " ++ template (vDescription w)
            ++ appendIf (js " | ") (vLevels w)
            ++ appendIf (js " | ") (vDifficulty w))
  end.

(** [app.get("/goal/compact", ...)] *)
Definition compactHandler (nameParam : QueryParam) : Handler :=
  match nameParam with
  | QStructured => Reject
  | _ =>
      let raw := match nameParam with QString s => s | _ => [] end in
      let query := trim raw in
      if isEmpty query
      then Send 400 (Text (js "Please provide a goal name (?name=...)")) Return
      else
        FetchSheet (fun sheet =>
          match sheet with
          | None => catch "Error fetching goals."
          | Some rows =>
              let goals := loadGoals toLowerCase rows in
              let matches := searchGoals toLowerCase goals query in
              match matches with
              | [] =>
                  Send 404 (Text (js "Goal " ++ [QUOTE] ++ raw ++ [QUOTE]
                      ++ js " not found.")) Return
              | [goal] =>
                  match compactText goal with
                  | Some response => Send 200 (Text response) Return
                  | None => catch "Error fetching goals."
                  end
              | _ =>
                  match names (firstn 3 matches) with
                  | Some ns =>
                      Send 200 (Text (js "Multiple found: "
                          ++ join (js ", ") ns
                          ++ js ". Be specific!")) Return
                  | None => catch "Error fetching goals."
                  end
              end
          end)
  end.

End MoreRoutes.

Module IndexJsRoute.
Section Route.

Variable toLowerCase : jsstring -> jsstring.

(** What Express's [res.send] does with a truthy value that is not a
    string (a function or object found on the prototype chain): the body it
    sends, or [None] when it throws.  The framework is not part of the
    sources, so this is a parameter. *)
Variable sendOther : JSValue -> option Body.

(** [goals[k]] on the object of the first loader, whose values are strings
    and whose prototype is never replaced. *)
Definition get (goals : Props jsstring) (k : jsstring) : JSValue :=
  match lookupOwn k goals with
  | Some s => VString s
  | None => objectPrototypeGet VObjectPrototype k
  end.

(** [app.get("/goal", ...)] of [src/index.js] *)
Definition goalHandler (nameParam : QueryParam) : Handler :=
  match nameParam with
  | QStructured => Reject
  | _ =>
      let raw := match nameParam with QString s => s | _ => [] end in
      let query := toLowerCase (trim raw) in
      if isEmpty query
      then Send 400 (Text (js "Please provide a goal name (?name=...)")) Return
      else
        FetchSheet (fun sheet =>
          match sheet with
          | None => catch "Error fetching goals from Google Sheets."
          | Some rows =>
              let goals := IndexJs.loadGoals toLowerCase rows in
              if truthy (get goals query)
              then match get goals query with
                   | VString s => Send 200 (Text s) Return
                   | other =>
                       match sendOther other with
                       | Some body => Send 200 body Return
                       | None =>
                           catch "Error fetching goals from Google Sheets."
                       end
                   end
              else Send 404 (Text (js "Goal '" ++ query ++ js "' not found."))
                     Return
          end)
  end.

End Route.
End IndexJsRoute.

(** The statuses sent during a run. *)
Fixpoint statuses (events : list Event) : list nat :=
  match events with
  | [] => []
  | EvSend status _ :: rest => status :: statuses rest
  | _ :: rest => statuses rest
  end.

(** A record with every optional field empty. *)
Definition bare (goal : Goal) : bool :=
  isEmpty (levels goal) && isEmpty (difficulty goal)
  && isEmpty (videoLink goal).

(** ** More sample data *)

Module MoreSamples.

Definition glitchRows : list Row :=
  [Samples.row "Jano Skip Glitch" "x"; Samples.row "Flame Skip" "y";
   Samples.row "Walk of Life" "z"].

(** Six rows whose names all contain [skip]. *)
Definition skipRows : list Row :=
  [Samples.row "Skip A" "a"; Samples.row "Skip B" "b";
   Samples.row "Skip C" "c"; Samples.row "Skip D" "d";
   Samples.row "Skip E" "e"; Samples.row "Skip F" "f"].

Definition skipGoals : list Goal :=
  [Samples.goal "Skip A" "a"; Samples.goal "Skip B" "b";
   Samples.goal "Skip C" "c"; Samples.goal "Skip D" "d";
   Samples.goal "Skip E" "e"; Samples.goal "Skip F" "f"].

(** A row with a Description of spaces only. *)
Definition blankDescriptionRows : list Row :=
  [Samples.row "Jano Skip" "first"; Samples.row "jano skip" "   "].

Definition fullGoal : Goal :=
  mkGoal (js "A") (js "d") (js "Woods") [STAR] (js "http://v").

(** One possible behaviour of [res.send] on a value that is not a string:
    it throws. *)
Definition sendThrows : JSValue -> option Body := fun _ => None.

End MoreSamples.

(** * Properties *)

(** ** Strings *)

Lemma streq_eq (a b : jsstring) : streq a b = true <-> a = b.
Proof.
  revert b; induction a as [|x a IH]; intros [|y b]; simpl;
    try (split; [discriminate | discriminate]); try tauto.
  rewrite andb_true_iff, N.eqb_eq, IH.
  split; [intros [-> ->]; reflexivity | intros [= -> ->]; auto].
Qed.

Lemma streq_refl (a : jsstring) : streq a a = true.
Proof. apply streq_eq; reflexivity. Qed.

Lemma streq_neq (a b : jsstring) : streq a b = false <-> a <> b.
Proof.
  rewrite <- streq_eq. destruct (streq a b); split; congruence.
Qed.

Lemma streq_sym (a b : jsstring) : streq a b = streq b a.
Proof.
  destruct (streq a b) eqn:E.
  - apply streq_eq in E; subst; symmetry; apply streq_refl.
  - apply streq_neq in E. symmetry; apply streq_neq; congruence.
Qed.

Lemma startsWith_spec (s t : jsstring) :
  startsWith s t = true <-> exists post, s = t ++ post.
Proof.
  revert s; induction t as [|y t IH]; intros s; simpl.
  - split; [intros _; exists s; reflexivity | destruct s; reflexivity].
  - destruct s as [|x s].
    + split; [discriminate | intros [post H]; discriminate].
    + simpl. rewrite andb_true_iff, N.eqb_eq, IH. split.
      * intros [-> [post ->]]; exists post; reflexivity.
      * intros [post [= -> ->]]; split; [reflexivity|].
        exists post; reflexivity.
Qed.

(** [includes] decides the occurrence of [t] in [s]. *)
Lemma includes_spec (s t : jsstring) :
  includes s t = true <-> Substring t s.
Proof.
  unfold Substring. induction s as [|x s IH].
  - change (includes [] t) with (startsWith [] t || false).
    rewrite orb_false_r, startsWith_spec. split.
    + intros [post H]; exists [], post; exact H.
    + intros [pre [post H]]. destruct pre as [|p pre]; [|discriminate].
      exists post; exact H.
  - change (includes (x :: s) t)
      with (startsWith (x :: s) t || includes s t).
    rewrite orb_true_iff, startsWith_spec, IH. split.
    + intros [[post H] | [pre [post H]]].
      * exists [], post; exact H.
      * exists (x :: pre), post; simpl; rewrite H; reflexivity.
    + intros [pre [post H]]. destruct pre as [|p pre].
      * left; exists post; exact H.
      * right. injection H as _ H. exists pre, post; exact H.
Qed.

Lemma includes_empty (s : jsstring) : includes s [] = true.
Proof. apply includes_spec; exists [], s; reflexivity. Qed.


(** [split] cuts at every separator: gluing the pieces back with the
    separator gives the string, and no piece holds the separator. *)

Lemma split_nonempty (sep : codeunit) (s : jsstring) : split sep s <> [].
Proof.
  induction s as [|c s IH]; simpl; [discriminate|].
  destruct (c =? sep); [discriminate|].
  destruct (split sep s); [contradiction | discriminate].
Qed.

Lemma glue_split (sep : codeunit) (s : jsstring) : glue sep (split sep s) = s.
Proof.
  induction s as [|c s IH]; [reflexivity|].
  simpl. destruct (c =? sep) eqn:E.
  - apply N.eqb_eq in E; subst c.
    pose proof (split_nonempty sep s) as NE.
    destruct (split sep s) as [|w ws]; [contradiction|].
    simpl in *. rewrite IH; reflexivity.
  - pose proof (split_nonempty sep s) as NE.
    destruct (split sep s) as [|w ws]; [contradiction|].
    destruct ws as [|w' ws]; simpl in *; rewrite <- IH; reflexivity.
Qed.

Lemma split_no_sep (sep : codeunit) (s w : jsstring) :
  In w (split sep s) -> ~ In sep w.
Proof.
  revert w; induction s as [|c s IH]; intros w; simpl.
  - intros [<- | []]; auto.
  - destruct (c =? sep) eqn:E.
    + intros [<- | H]; [auto | apply IH; exact H].
    + apply N.eqb_neq in E.
      pose proof (split_nonempty sep s) as NE.
      destruct (split sep s) as [|w0 ws]; [contradiction|].
      intros [<- | H].
      * intros [Hc | Hin]; [congruence|].
        apply (IH w0); [left; reflexivity | exact Hin].
      * apply IH; right; exact H.
Qed.

(** ** Own properties *)

Section OwnProperties.

Context {V : Type}.
Implicit Types (ps : Props V) (k : jsstring) (v : V).

Lemma lookupOwn_setOwn_same k v ps : lookupOwn k (setOwn k v ps) = Some v.
Proof.
  induction ps as [|[k' v'] ps IH]; simpl.
  - rewrite streq_refl; reflexivity.
  - destruct (streq k' k) eqn:E; simpl; rewrite E; auto.
Qed.

Lemma lookupOwn_setOwn_other k k' v ps :
  k <> k' -> lookupOwn k' (setOwn k v ps) = lookupOwn k' ps.
Proof.
  intros NE. induction ps as [|[k0 v0] ps IH]; simpl.
  - apply streq_neq in NE; rewrite NE; reflexivity.
  - destruct (streq k0 k) eqn:E; simpl.
    + apply streq_eq in E; subst k0.
      apply streq_neq in NE; rewrite NE; reflexivity.
    + rewrite IH; reflexivity.
Qed.

Lemma lookupOwn_In k v ps : lookupOwn k ps = Some v -> In (k, v) ps.
Proof.
  induction ps as [|[k' v'] ps IH]; simpl; [discriminate|].
  destruct (streq k' k) eqn:E.
  - apply streq_eq in E; subst. intros [= ->]; left; reflexivity.
  - intros H; right; auto.
Qed.

Lemma lookupOwn_None k ps : lookupOwn k ps = None <-> ~ In k (List.map fst ps).
Proof.
  induction ps as [|[k' v'] ps IH]; simpl; [tauto|].
  destruct (streq k' k) eqn:E.
  - apply streq_eq in E; subst. split; [discriminate | intros H; exfalso; auto].
  - apply streq_neq in E. rewrite IH. tauto.
Qed.

(** An object has one property per key. *)
Lemma In_lookupOwn k v ps :
  NoDup (List.map fst ps) -> In (k, v) ps -> lookupOwn k ps = Some v.
Proof.
  induction ps as [|[k' v'] ps IH]; simpl; [tauto|].
  intros ND [E | H]; inversion ND as [|? ? Hnotin ND']; subst.
  - injection E as -> ->. rewrite streq_refl; reflexivity.
  - destruct (streq k' k) eqn:E.
    + apply streq_eq in E; subst k'. exfalso; apply Hnotin.
      change k with (fst (k, v)); apply in_map; exact H.
    + auto.
Qed.

(** A write to a new key appends a property; a write to an existing key
    keeps every key where it is. *)
Lemma setOwn_new k v ps :
  lookupOwn k ps = None -> setOwn k v ps = ps ++ [(k, v)].
Proof.
  induction ps as [|[k' v'] ps IH]; simpl; [reflexivity|].
  destruct (streq k' k); [discriminate|].
  intros H; rewrite IH by exact H; reflexivity.
Qed.

Lemma setOwn_existing k v v0 ps :
  lookupOwn k ps = Some v0 -> List.map fst (setOwn k v ps) = List.map fst ps.
Proof.
  induction ps as [|[k' v'] ps IH]; simpl; [discriminate|].
  destruct (streq k' k); simpl; [reflexivity|].
  intros H; rewrite IH by exact H; reflexivity.
Qed.

Lemma setOwn_NoDup k v ps :
  NoDup (List.map fst ps) -> NoDup (List.map fst (setOwn k v ps)).
Proof.
  intros ND. destruct (lookupOwn k ps) as [v0|] eqn:E.
  - rewrite (setOwn_existing _ _ _ _ E); exact ND.
  - rewrite (setOwn_new _ _ _ E), map_app; simpl.
    apply lookupOwn_None in E.
    apply NoDup_rev in ND. rewrite <- (rev_involutive (_ ++ _)).
    apply NoDup_rev. rewrite rev_app_distr; simpl.
    constructor; [rewrite <- in_rev; exact E | exact ND].
Qed.

Lemma setOwn_length k v ps :
  (List.length (setOwn k v ps) <= S (List.length ps))%nat.
Proof.
  induction ps as [|[k' v'] ps IH]; simpl; [lia|].
  destruct (streq k' k); simpl; lia.
Qed.

End OwnProperties.

(** The keys after a write depend only on the keys before it, whatever the
    values are. *)
Lemma setOwn_keys {V W : Type} (k : jsstring) (v : V) (w : W)
    (ps : Props V) (qs : Props W) :
  List.map fst ps = List.map fst qs ->
  List.map fst (setOwn k v ps) = List.map fst (setOwn k w qs).
Proof.
  revert qs; induction ps as [|[k1 v1] ps IH]; intros [|[k2 w2] qs]; simpl;
    try discriminate; [reflexivity|].
  intros [= -> H]. destruct (streq k2 k); simpl; [congruence|].
  rewrite (IH qs H); reflexivity.
Qed.

Lemma lookupOwn_keys {V W : Type} (k : jsstring) (ps : Props V) (qs : Props W) :
  List.map fst ps = List.map fst qs ->
  (lookupOwn k ps = None <-> lookupOwn k qs = None).
Proof.
  intros H. rewrite !lookupOwn_None, H. tauto.
Qed.

(** ** Enumeration order *)

Lemma insertIndexed_perm {V : Type} (i : N) (e : jsstring * V) l :
  Permutation (insertIndexed i e l) ((i, e) :: l).
Proof.
  induction l as [|[j e'] l IH]; simpl; [reflexivity|].
  destruct (i <? j); [reflexivity|].
  rewrite IH; apply perm_swap.
Qed.

Lemma indexedProps_perm {V : Type} (ps : Props V) :
  Permutation (List.map snd (indexedProps ps))
              (filter (fun e => isArrayIndex (fst e)) ps).
Proof.
  induction ps as [|e ps IH]; simpl; [reflexivity|].
  unfold isArrayIndex at 1. destruct (arrayIndex (fst e)) as [i|]; [|exact IH].
  rewrite insertIndexed_perm; simpl. constructor; exact IH.
Qed.

Lemma filter_split_perm {A : Type} (f : A -> bool) (l : list A) :
  Permutation (filter f l ++ filter (fun x => negb (f x)) l) l.
Proof.
  induction l as [|x l IH]; simpl; [reflexivity|].
  destruct (f x); simpl.
  - constructor; exact IH.
  - rewrite <- Permutation_middle; constructor; exact IH.
Qed.

(** Enumeration reorders the own properties and neither drops nor repeats
    any. *)
Lemma ownPropertyOrder_perm {V : Type} (ps : Props V) :
  Permutation (ownPropertyOrder ps) ps.
Proof.
  unfold ownPropertyOrder. rewrite indexedProps_perm.
  apply (filter_split_perm (fun e => isArrayIndex (fst e))).
Qed.

Lemma ownPropertyOrder_In {V : Type} (ps : Props V) e :
  In e (ownPropertyOrder ps) <-> In e ps.
Proof.
  split; apply Permutation_in;
    [apply ownPropertyOrder_perm | symmetry; apply ownPropertyOrder_perm].
Qed.

Lemma ownPropertyOrder_length {V : Type} (ps : Props V) :
  List.length (ownPropertyOrder ps) = List.length ps.
Proof. apply Permutation_length, ownPropertyOrder_perm. Qed.

(** When no key is an array index, enumeration order is creation order. *)
Lemma indexedProps_plain {V : Type} (ps : Props V) :
  (forall e, In e ps -> isArrayIndex (fst e) = false) ->
  indexedProps ps = [].
Proof.
  induction ps as [|e ps IH]; intros H; [reflexivity|].
  simpl.
  assert (He : isArrayIndex (fst e) = false) by (apply H; left; reflexivity).
  unfold isArrayIndex in He. destruct (arrayIndex (fst e)); [discriminate|].
  apply IH; intros x Hx; apply H; right; exact Hx.
Qed.

Lemma ownPropertyOrder_plain {V : Type} (ps : Props V) :
  (forall e, In e ps -> isArrayIndex (fst e) = false) ->
  ownPropertyOrder ps = ps.
Proof.
  intros H. unfold ownPropertyOrder. rewrite (indexedProps_plain ps H); simpl.
  induction ps as [|e ps IH]; [reflexivity|].
  simpl. rewrite (H e (or_introl eq_refl)); simpl. f_equal.
  apply IH; intros x Hx; apply H; right; exact Hx.
Qed.

(** The array-index keys come out in ascending numeric order. *)
Lemma insertIndexed_sorted {V : Type} (i : N) (e : jsstring * V) l :
  Sorted N.le (List.map fst l) ->
  Sorted N.le (List.map fst (insertIndexed i e l)).
Proof.
  induction l as [|[j e'] l IH]; simpl; intros S.
  - repeat constructor.
  - destruct (i <? j) eqn:E; simpl.
    + apply N.ltb_lt in E. constructor; [exact S | constructor; lia].
    + apply N.ltb_ge in E. inversion S as [|? ? S' Hd]; subst.
      constructor; [apply IH; exact S'|].
      destruct l as [|[j' e''] l]; simpl; [constructor; exact E|].
      destruct (i <? j'); simpl; constructor; [exact E|].
      inversion Hd; subst; assumption.
Qed.

Lemma indexedProps_sorted {V : Type} (ps : Props V) :
  Sorted N.le (List.map fst (indexedProps ps)).
Proof.
  induction ps as [|e ps IH]; simpl; [constructor|].
  destruct (arrayIndex (fst e)); [apply insertIndexed_sorted|]; exact IH.
Qed.

(** The enumerated keys depend only on the own keys, whatever the values
    are. *)
Lemma insertIndexed_keys {V W : Type} (i : N) (e : jsstring * V)
    (e' : jsstring * W) l l' :
  fst e = fst e' ->
  List.map (fun x => (fst x, fst (snd x))) l
    = List.map (fun x => (fst x, fst (snd x))) l' ->
  List.map (fun x => (fst x, fst (snd x))) (insertIndexed i e l)
    = List.map (fun x => (fst x, fst (snd x))) (insertIndexed i e' l').
Proof.
  intros He. revert l'; induction l as [|[j a] l IH]; intros [|[j' a'] l'];
    simpl; try discriminate.
  - intros _; rewrite He; reflexivity.
  - intros [= -> Ha Hl]. destruct (i <? j'); simpl.
    + rewrite He, Ha, Hl; reflexivity.
    + rewrite Ha, (IH l' Hl); reflexivity.
Qed.

Lemma indexedProps_keys {V W : Type} (ps : Props V) (qs : Props W) :
  List.map fst ps = List.map fst qs ->
  List.map (fun x => (fst x, fst (snd x))) (indexedProps ps)
    = List.map (fun x => (fst x, fst (snd x))) (indexedProps qs).
Proof.
  revert qs; induction ps as [|e ps IH]; intros [|e' qs]; simpl;
    try discriminate; [reflexivity|].
  intros [= He H]. rewrite <- He.
  destruct (arrayIndex (fst e)); [|apply IH; exact H].
  apply insertIndexed_keys; [exact He | apply IH; exact H].
Qed.

Lemma ownPropertyOrder_keys {V W : Type} (ps : Props V) (qs : Props W) :
  List.map fst ps = List.map fst qs ->
  List.map fst (ownPropertyOrder ps) = List.map fst (ownPropertyOrder qs).
Proof.
  intros H. unfold ownPropertyOrder. rewrite !map_app. f_equal.
  - rewrite !map_map.
    transitivity (List.map snd
      (List.map (fun x : N * (jsstring * V) => (fst x, fst (snd x)))
                (indexedProps ps))).
    + rewrite map_map; reflexivity.
    + rewrite (indexedProps_keys ps qs H), map_map; reflexivity.
  - revert qs H; induction ps as [|e ps IH]; intros [|e' qs]; simpl;
      try discriminate; [reflexivity|].
    intros [= He H]. rewrite <- He.
    destruct (isArrayIndex (fst e)); simpl; [|rewrite He; f_equal];
      apply IH; exact H.
Qed.

(** ** Reads and writes on the goals object *)

Lemma goalField_PROTO (g : Goal) : goalField g PROTO = None.
Proof. reflexivity. Qed.

Lemma objectPrototypeGet_other (parent : JSValue) (k : jsstring) :
  k <> PROTO ->
  objectPrototypeGet parent k = VUndefined
  \/ objectPrototypeGet parent k = VBuiltin k.
Proof.
  intros NE. unfold objectPrototypeGet. apply streq_neq in NE; rewrite NE.
  destruct (existsb (streq k) objectPrototypeMethods); auto.
Qed.

(** A read yields a goal record for an own key, and for [__proto__] once the
    prototype has been replaced by a record; nowhere else. *)
Lemma getGoal_spec (goals : GoalsObject) (k : jsstring) :
  getGoal goals k =
  match lookupOwn k (own goals) with
  | Some g => Some g
  | None => if streq k PROTO then proto goals else None
  end.
Proof.
  unfold getGoal, get. destruct (lookupOwn k (own goals)); [reflexivity|].
  unfold inherited. destruct (streq k PROTO) eqn:E.
  - apply streq_eq in E; subst k. destruct (proto goals) as [p|].
    + rewrite goalField_PROTO. reflexivity.
    + reflexivity.
  - apply streq_neq in E. destruct (proto goals) as [p|].
    + destruct (goalField p k); [reflexivity|].
      destruct (objectPrototypeGet_other (VGoal p) k E) as [-> | ->];
        reflexivity.
    + destruct (objectPrototypeGet_other VObjectPrototype k E) as [-> | ->];
        reflexivity.
Qed.

(** Under reads, a write behaves as the update of a mapping. *)
Lemma getGoal_assign (goals : GoalsObject) (k k' : jsstring) (g : Goal) :
  getGoal (assign goals k g) k'
  = if streq k k' then Some g else getGoal goals k'.
Proof.
  rewrite !getGoal_spec. unfold assign.
  destruct (streq k k') eqn:E.
  - apply streq_eq in E; subst k'.
    destruct (lookupOwn k (own goals)) eqn:L; cbn [own proto].
    + rewrite lookupOwn_setOwn_same; reflexivity.
    + destruct (streq k PROTO) eqn:P; cbn [own proto].
      * rewrite L; reflexivity.
      * rewrite lookupOwn_setOwn_same; reflexivity.
  - apply streq_neq in E.
    destruct (lookupOwn k (own goals)) eqn:L; cbn [own proto].
    + rewrite lookupOwn_setOwn_other by exact E; reflexivity.
    + destruct (streq k PROTO) eqn:P; cbn [own proto].
      * apply streq_eq in P; subst k.
        destruct (lookupOwn k' (own goals)); [reflexivity|].
        assert (NP : streq k' PROTO = false) by (apply streq_neq; congruence).
        rewrite NP; reflexivity.
      * rewrite lookupOwn_setOwn_other by exact E; reflexivity.
Qed.

Lemma getGoal_emptyObject (k : jsstring) : getGoal emptyObject k = None.
Proof.
  rewrite getGoal_spec; simpl. destruct (streq k PROTO); reflexivity.
Qed.

Lemma assign_NoDup (goals : GoalsObject) (k : jsstring) (g : Goal) :
  NoDup (List.map fst (own goals)) ->
  NoDup (List.map fst (own (assign goals k g))).
Proof.
  intros ND. unfold assign.
  destruct (lookupOwn k (own goals)); simpl; [apply setOwn_NoDup; exact ND|].
  destruct (streq k PROTO); simpl; [exact ND | apply setOwn_NoDup; exact ND].
Qed.

Lemma assign_length (goals : GoalsObject) (k : jsstring) (g : Goal) :
  (List.length (own (assign goals k g)) <= S (List.length (own goals)))%nat.
Proof.
  unfold assign.
  destruct (lookupOwn k (own goals)); simpl; [apply setOwn_length|].
  destruct (streq k PROTO); simpl; [lia | apply setOwn_length].
Qed.

(** An enumerated entry is what a read of its key returns. *)
Lemma ObjectEntries_getGoal (goals : GoalsObject) (k : jsstring) (g : Goal) :
  NoDup (List.map fst (own goals)) ->
  In (k, g) (ObjectEntries goals) -> getGoal goals k = Some g.
Proof.
  intros ND H. unfold ObjectEntries in H.
  apply (proj1 (ownPropertyOrder_In _ _)) in H.
  rewrite getGoal_spec, (In_lookupOwn _ _ _ ND H); reflexivity.
Qed.

(** ** The loader *)

Lemma find_app {A : Type} (f : A -> bool) (l1 l2 : list A) :
  find f (l1 ++ l2) =
  match find f l1 with
  | Some x => Some x
  | None => find f l2
  end.
Proof.
  induction l1 as [|x l1 IH]; simpl; [reflexivity|].
  destruct (f x); [reflexivity | exact IH].
Qed.

Section LoaderFacts.

Variable toLowerCase : jsstring -> jsstring.

Lemma feed_cons (row : Row) (rows : list Row) (goals : GoalsObject) :
  feed toLowerCase (row :: rows) goals
  = feed toLowerCase rows (onData toLowerCase row goals).
Proof. reflexivity. Qed.

Lemma onData_invalid (row : Row) (goals : GoalsObject) :
  validRow row = false -> onData toLowerCase row goals = goals.
Proof. unfold onData; intros ->; reflexivity. Qed.

Lemma getGoal_onData (row : Row) (goals : GoalsObject) (k : jsstring) :
  getGoal (onData toLowerCase row goals) k =
  if writes toLowerCase k row then Some (rowGoal row) else getGoal goals k.
Proof.
  unfold onData, writes.
  destruct (validRow row); simpl; [apply getGoal_assign | reflexivity].
Qed.

(** A read after the rows have been fed returns the record of the last row
    that wrote under the key. *)
Lemma getGoal_feed (rows : list Row) (goals : GoalsObject) (k : jsstring) :
  getGoal (feed toLowerCase rows goals) k =
  match find (writes toLowerCase k) (rev rows) with
  | Some row => Some (rowGoal row)
  | None => getGoal goals k
  end.
Proof.
  revert goals; induction rows as [|row rows IH]; intros goals;
    [reflexivity|].
  rewrite feed_cons, IH. simpl rev. rewrite find_app, getGoal_onData; simpl.
  destruct (find (writes toLowerCase k) (rev rows)); [reflexivity|].
  destruct (writes toLowerCase k row); reflexivity.
Qed.

Lemma getGoal_loadGoals (rows : list Row) (k : jsstring) :
  getGoal (loadGoals toLowerCase rows) k
  = option_map rowGoal (find (writes toLowerCase k) (rev rows)).
Proof.
  unfold loadGoals. rewrite getGoal_feed, getGoal_emptyObject.
  destruct (find (writes toLowerCase k) (rev rows)); reflexivity.
Qed.

(** What [find] tells about the rows that write under a key. *)
Lemma find_writes_some (rows : list Row) (k : jsstring) (row : Row) :
  find (writes toLowerCase k) (rev rows) = Some row ->
  In row rows /\ validRow row = true /\ rowKey toLowerCase row = k.
Proof.
  intros F. apply find_some in F as [I W]. unfold writes in W.
  apply andb_true_iff in W as [V S]. apply streq_eq in S.
  rewrite <- in_rev in I. auto.
Qed.

Lemma find_writes_none (rows : list Row) (k : jsstring) :
  find (writes toLowerCase k) (rev rows) = None ->
  forall row, In row rows -> validRow row = true ->
              rowKey toLowerCase row <> k.
Proof.
  intros F row I V S.
  pose proof (find_none _ _ F row (proj1 (in_rev _ _) I)) as W.
  unfold writes in W. rewrite V, S, streq_refl in W. discriminate.
Qed.

(** Rows that fail the guard can be dropped from the input. *)
Lemma feed_filter_valid (rows : list Row) (goals : GoalsObject) :
  feed toLowerCase (filter validRow rows) goals = feed toLowerCase rows goals.
Proof.
  revert goals; induction rows as [|row rows IH]; intros goals;
    [reflexivity|].
  rewrite feed_cons. simpl filter. destruct (validRow row) eqn:E.
  - rewrite feed_cons. apply IH.
  - rewrite (onData_invalid row goals E); apply IH.
Qed.

Lemma feed_NoDup (rows : list Row) (goals : GoalsObject) :
  NoDup (List.map fst (own goals)) ->
  NoDup (List.map fst (own (feed toLowerCase rows goals))).
Proof.
  revert goals; induction rows as [|row rows IH]; intros goals ND;
    [exact ND|].
  rewrite feed_cons. apply IH. unfold onData.
  destruct (validRow row); [apply assign_NoDup|]; exact ND.
Qed.

Lemma loadGoals_NoDup (rows : list Row) :
  NoDup (List.map fst (own (loadGoals toLowerCase rows))).
Proof. apply feed_NoDup; constructor. Qed.

(** Each valid row adds at most one property. *)
Lemma feed_length (rows : list Row) (goals : GoalsObject) :
  (List.length (own (feed toLowerCase rows goals))
   <= List.length (own goals) + List.length (filter validRow rows))%nat.
Proof.
  revert goals; induction rows as [|row rows IH]; intros goals;
    [simpl; lia|].
  rewrite feed_cons. specialize (IH (onData toLowerCase row goals)).
  unfold onData in *. simpl filter.
  destruct (validRow row); simpl; [|exact IH].
  pose proof (assign_length goals (rowKey toLowerCase row) (rowGoal row)).
  lia.
Qed.

(** No own property is ever created under [__proto__]. *)
Lemma assign_no_own_PROTO (goals : GoalsObject) (k : jsstring) (g : Goal) :
  lookupOwn PROTO (own goals) = None ->
  lookupOwn PROTO (own (assign goals k g)) = None.
Proof.
  intros H. unfold assign.
  destruct (lookupOwn k (own goals)) eqn:L; cbn [own proto].
  - destruct (streq k PROTO) eqn:P.
    + apply streq_eq in P; congruence.
    + apply streq_neq in P.
      rewrite lookupOwn_setOwn_other by exact P; exact H.
  - destruct (streq k PROTO) eqn:P; cbn [own proto]; [exact H|].
    apply streq_neq in P.
    rewrite lookupOwn_setOwn_other by exact P; exact H.
Qed.

Lemma feed_no_own_PROTO (rows : list Row) (goals : GoalsObject) :
  lookupOwn PROTO (own goals) = None ->
  lookupOwn PROTO (own (feed toLowerCase rows goals)) = None.
Proof.
  revert goals; induction rows as [|row rows IH]; intros goals H;
    [exact H|].
  rewrite feed_cons. apply IH. unfold onData.
  destruct (validRow row); [apply assign_no_own_PROTO|]; exact H.
Qed.

Lemma ObjectKeys_lookupOwn (goals : GoalsObject) (k : jsstring) :
  In k (ObjectKeys goals) <-> lookupOwn k (own goals) <> None.
Proof.
  unfold ObjectKeys, ObjectEntries. rewrite lookupOwn_None. split.
  - intros H NI; apply NI. apply in_map_iff in H as [e [<- He]].
    apply in_map, ownPropertyOrder_In, He.
  - intros H.
    destruct (in_dec (list_eq_dec N.eq_dec) k (List.map fst (own goals)))
      as [I|NI]; [|contradiction].
    apply in_map_iff in I as [e [<- He]].
    apply in_map, ownPropertyOrder_In, He.
Qed.

(** The enumerated keys are the keys of the valid rows, [__proto__]
    excepted. *)
Lemma loadGoals_keys (rows : list Row) (k : jsstring) :
  In k (ObjectKeys (loadGoals toLowerCase rows)) <->
  k <> PROTO
  /\ exists row,
       In row rows /\ validRow row = true /\ rowKey toLowerCase row = k.
Proof.
  assert (NP : lookupOwn PROTO (own (loadGoals toLowerCase rows)) = None)
    by (apply feed_no_own_PROTO; reflexivity).
  rewrite ObjectKeys_lookupOwn.
  pose proof (getGoal_spec (loadGoals toLowerCase rows) k) as G.
  rewrite getGoal_loadGoals in G. split.
  - intros H. assert (k <> PROTO) as NE by (intros ->; contradiction).
    split; [exact NE|].
    destruct (lookupOwn k (own (loadGoals toLowerCase rows))) eqn:L;
      [|contradiction].
    destruct (find (writes toLowerCase k) (rev rows)) as [row|] eqn:F;
      [|discriminate].
    exists row. apply find_writes_some, F.
  - intros [NE [row [I [V S]]]] L. rewrite L in G.
    apply streq_neq in NE; rewrite NE in G.
    destruct (find (writes toLowerCase k) (rev rows)) eqn:F; [discriminate|].
    exact (find_writes_none rows k F row I V S).
Qed.

(** The record read under a key is that of the last valid row with the
    key. *)
Lemma getGoal_last_writer (pre post : list Row) (row : Row) (key : jsstring) :
  validRow row = true ->
  rowKey toLowerCase row = key ->
  (forall later, In later post -> validRow later = true ->
                 rowKey toLowerCase later <> key) ->
  getGoal (loadGoals toLowerCase (pre ++ row :: post)) key
  = Some (rowGoal row).
Proof.
  intros V K Later.
  rewrite getGoal_loadGoals, rev_app_distr. simpl rev.
  rewrite <- app_assoc, find_app.
  destruct (find (writes toLowerCase key) (rev post)) as [r|] eqn:F.
  - apply find_writes_some in F as [I [Vr S]].
    exfalso; exact (Later r I Vr S).
  - simpl. unfold writes at 1. rewrite V, K, streq_refl. reflexivity.
Qed.

(** A key is read as a record exactly when a valid row has it. *)
Lemma getGoal_some_iff (rows : list Row) (k : jsstring) :
  (exists g, getGoal (loadGoals toLowerCase rows) k = Some g) <->
  (exists row,
      In row rows /\ validRow row = true /\ rowKey toLowerCase row = k).
Proof.
  rewrite getGoal_loadGoals.
  destruct (find (writes toLowerCase k) (rev rows)) as [r|] eqn:F; split.
  - intros _. exists r. apply find_writes_some, F.
  - intros _. exists (rowGoal r). reflexivity.
  - intros [g H]. discriminate H.
  - intros [row [I [V S]]].
    exfalso; exact (find_writes_none rows k F row I V S).
Qed.

(** Every record read from the loaded mapping was built from a valid row
    with the key. *)
Lemma getGoal_provenance (rows : list Row) (k : jsstring) (g : Goal) :
  getGoal (loadGoals toLowerCase rows) k = Some g ->
  exists row, In row rows /\ validRow row = true
              /\ rowKey toLowerCase row = k /\ g = rowGoal row.
Proof.
  intros H. rewrite getGoal_loadGoals in H.
  destruct (find (writes toLowerCase k) (rev rows)) as [row|] eqn:F;
    [|discriminate].
  injection H as <-. apply find_writes_some in F as [I [V S]].
  exists row. auto.
Qed.

End LoaderFacts.

(** ** The query resolver *)

Lemma partialMatch_spec (queryLower key : jsstring) :
  partialMatch queryLower key = true <->
  Substring queryLower key
  \/ forall word, In word (split SPACE queryLower) -> Substring word key.
Proof.
  unfold partialMatch. rewrite orb_true_iff, includes_spec, forallb_forall.
  split; (intros [H | H]; [left; exact H | right]);
    intros word Hw; apply includes_spec, H, Hw.
Qed.

(** On an object with the default prototype, the inherited members that a
    lookup can hit are [__proto__] and the methods of [Object.prototype]. *)
Lemma inherited_default (goals : GoalsObject) (k : jsstring) :
  proto goals = None ->
  (truthy (inherited goals k) = false
   <-> k <> PROTO /\ ~ In k objectPrototypeMethods).
Proof.
  intros P. unfold inherited, objectPrototypeGet. rewrite P.
  destruct (streq k PROTO) eqn:E.
  - apply streq_eq in E. simpl.
    split; [discriminate | intros [NE _]; contradiction].
  - apply streq_neq in E.
    destruct (existsb (streq k) objectPrototypeMethods) eqn:X; simpl.
    + apply existsb_exists in X as [m [Hm Hk]]. apply streq_eq in Hk; subst m.
      split; [discriminate | intros [_ NI]; contradiction].
    + split; [intros _ | reflexivity]. split; [exact E|].
      intros I. assert (existsb (streq k) objectPrototypeMethods = true)
        by (apply existsb_exists; exists k; split;
            [exact I | apply streq_refl]).
      congruence.
Qed.

Lemma filter_nil {A : Type} (f : A -> bool) (l : list A) :
  (forall x, In x l -> f x = false) -> filter f l = [].
Proof.
  induction l as [|x l IH]; intros H; simpl; [reflexivity|].
  rewrite (H x (or_introl eq_refl)).
  apply IH; intros y Hy; apply H; right; exact Hy.
Qed.

Section Resolver.

Variable toLowerCase : jsstring -> jsstring.

(** C1 (amended).  For every goals object and every query whose lowercase
    form is an own key of it, [searchGoals] returns exactly one value, the
    record stored under that key, whatever other keys contain the query.
    The query is lowercased only: trimming is done by the route handlers
    before they call [searchGoals]. *)
Theorem searchGoals_exact (goals : GoalsObject) (query : jsstring) (g : Goal) :
  lookupOwn (toLowerCase query) (own goals) = Some g ->
  searchGoals toLowerCase goals query = [VGoal g].
Proof.
  intros H. unfold searchGoals, get. rewrite H. reflexivity.
Qed.

(** C2 (amended).  For every goals object and every query whose lowercase
    form [q] is neither an own key nor the name of a truthy inherited
    member, [searchGoals] returns the records of exactly those keys that
    contain [q] or contain every piece of [q] cut at the single space
    U+0020 (the pieces hold no space and give [q] back when glued with
    spaces), in the order of [Object.entries]; that order is creation order
    when no key is an array index.  A key [jano skip glitch] is matched by
    [jano skip], and a query that matches no key yields the empty list. *)
Theorem searchGoals_partial (goals : GoalsObject) (query : jsstring) :
  lookupOwn (toLowerCase query) (own goals) = None ->
  truthy (inherited goals (toLowerCase query)) = false ->
  searchGoals toLowerCase goals query
    = List.map (fun e => VGoal (snd e))
        (filter (fun e => partialMatch (toLowerCase query) (fst e))
                (ObjectEntries goals))
  /\ (forall key,
        partialMatch (toLowerCase query) key = true <->
        Substring (toLowerCase query) key
        \/ forall word, In word (split SPACE (toLowerCase query)) ->
                        Substring word key)
  /\ (glue SPACE (split SPACE (toLowerCase query)) = toLowerCase query
      /\ forall word, In word (split SPACE (toLowerCase query)) ->
                      ~ In SPACE word)
  /\ ((forall e, In e (own goals) -> isArrayIndex (fst e) = false) ->
      ObjectEntries goals = own goals)
  /\ (toLowerCase query = js "jano skip" ->
      forall g, In (js "jano skip glitch", g) (own goals) ->
                In (VGoal g) (searchGoals toLowerCase goals query))
  /\ ((forall e, In e (own goals) ->
                 partialMatch (toLowerCase query) (fst e) = false) ->
      searchGoals toLowerCase goals query = []).
Proof.
  intros Hown Hinh.
  assert (S : searchGoals toLowerCase goals query
    = List.map (fun e => VGoal (snd e))
        (filter (fun e => partialMatch (toLowerCase query) (fst e))
                (ObjectEntries goals))).
  { unfold searchGoals, get. rewrite Hown, Hinh. reflexivity. }
  split; [exact S|]. split; [intros key; apply partialMatch_spec|].
  split; [split; [apply glue_split | apply split_no_sep]|].
  split; [intros H; apply ownPropertyOrder_plain, H|].
  split.
  - intros Hq g Hg. rewrite S.
    apply (in_map (fun e => VGoal (snd e)) _ (js "jano skip glitch", g)).
    apply filter_In. split.
    + apply ownPropertyOrder_In, Hg.
    + cbn [fst]. rewrite Hq. reflexivity.
  - intros H. rewrite S, filter_nil; [reflexivity|].
    intros e He. apply H, ownPropertyOrder_In, He.
Qed.

End Resolver.

(** ** The mapping produced by the loader *)

Section LoadedMapping.

Variable toLowerCase : jsstring -> jsstring.

(** C3.  The loaded mapping holds records for the valid rows and for no
    others.  A row with a non-empty Name and a non-empty Description makes
    the callback store its record under its key; a key is read as a record
    after the load if and only if some row with that key has a non-empty
    Name and a non-empty Description; every record that a read or an
    enumeration of the loaded mapping returns was built from such a row; a
    row with an empty Name or an empty Description leaves the mapping as it
    was, so the load is the load of the valid rows alone. *)
Theorem loadGoals_records_iff_valid_rows (rows : list Row) :
  (forall row goals,
      validRow row = true ->
      getGoal (onData toLowerCase row goals) (rowKey toLowerCase row)
        = Some (rowGoal row))
  /\ (forall row goals,
        validRow row = false -> onData toLowerCase row goals = goals)
  /\ (forall k,
        (exists g, getGoal (loadGoals toLowerCase rows) k = Some g) <->
        (exists row, In row rows /\ validRow row = true
                     /\ rowKey toLowerCase row = k))
  /\ (forall k g,
        getGoal (loadGoals toLowerCase rows) k = Some g ->
        exists row, In row rows /\ validRow row = true
                    /\ rowKey toLowerCase row = k /\ g = rowGoal row)
  /\ (forall k g,
        In (k, g) (ObjectEntries (loadGoals toLowerCase rows)) ->
        exists row, In row rows /\ validRow row = true
                    /\ rowKey toLowerCase row = k /\ g = rowGoal row)
  /\ loadGoals toLowerCase (filter validRow rows) = loadGoals toLowerCase rows.
Proof.
  split; [|split; [|split; [|split; [|split]]]].
  - intros row goals V. rewrite getGoal_onData. unfold writes.
    rewrite V, streq_refl. reflexivity.
  - intros row goals V. apply onData_invalid, V.
  - intros k. apply getGoal_some_iff.
  - intros k g. apply getGoal_provenance.
  - intros k g H. apply getGoal_provenance.
    apply ObjectEntries_getGoal; [apply loadGoals_NoDup | exact H].
  - apply feed_filter_valid.
Qed.

(** C4.  When several valid rows have names that trim and lowercase to one
    key, the loaded mapping holds under that key the record built from the
    last of them: a read of the key returns the record of the valid row
    after which no valid row has the same key. *)
Theorem loadGoals_last_row_wins (pre post : list Row) (row : Row)
    (key : jsstring) :
  validRow row = true ->
  rowKey toLowerCase row = key ->
  (forall later, In later post -> validRow later = true ->
                 rowKey toLowerCase later <> key) ->
  get (loadGoals toLowerCase (pre ++ row :: post)) key = VGoal (rowGoal row).
Proof.
  intros V K Later.
  pose proof (getGoal_last_writer toLowerCase pre post row key V K Later) as G.
  unfold getGoal in G.
  destruct (get (loadGoals toLowerCase (pre ++ row :: post)) key);
    try discriminate.
  injection G as ->; reflexivity.
Qed.

(** An earlier row with the same key leaves nothing behind: the enumeration
    lists the key once, with the last record. *)
Lemma loadGoals_last_row_enumerated (pre post : list Row) (row : Row) :
  validRow row = true ->
  rowKey toLowerCase row <> PROTO ->
  (forall later, In later post -> validRow later = true ->
                 rowKey toLowerCase later <> rowKey toLowerCase row) ->
  forall g, In (rowKey toLowerCase row, g)
               (ObjectEntries (loadGoals toLowerCase (pre ++ row :: post)))
            <-> g = rowGoal row.
Proof.
  intros V NP Later g.
  pose proof (getGoal_last_writer toLowerCase pre post row _ V eq_refl Later)
    as GG.
  set (goals := loadGoals toLowerCase (pre ++ row :: post)) in *.
  split.
  - intros H. apply ObjectEntries_getGoal in H; [|apply loadGoals_NoDup].
    congruence.
  - intros ->. rewrite getGoal_spec in GG.
    destruct (lookupOwn (rowKey toLowerCase row) (own goals)) eqn:L.
    + injection GG as ->. apply ownPropertyOrder_In, lookupOwn_In, L.
    + apply streq_neq in NP. rewrite NP in GG. discriminate.
Qed.

(** A row named [__proto__] is reachable by a read but is not
    enumerated. *)
Lemma loadGoals_PROTO_not_enumerated (rows : list Row) :
  ~ In PROTO (ObjectKeys (loadGoals toLowerCase rows)).
Proof.
  intros H. apply loadGoals_keys in H as [NE _]. contradiction.
Qed.

(** One step of either loader changes the keys in the same way. *)
Lemma onData_same_keys (row : Row) (old : Props jsstring)
    (goals : GoalsObject) :
  List.map fst old = List.map fst (own goals) ->
  List.map fst (IndexJs.onData toLowerCase row old)
  = List.map fst (own (onData toLowerCase row goals)).
Proof.
  intros H. unfold IndexJs.onData, onData.
  destruct (validRow row); [|exact H].
  unfold IndexJs.assign, assign, rowKey.
  set (k := toLowerCase (trim (cell (Name row)))).
  pose proof (lookupOwn_keys k old (own goals) H) as N.
  destruct (lookupOwn k old) eqn:L1, (lookupOwn k (own goals)) eqn:L2;
    cbn [own proto].
  - apply setOwn_keys, H.
  - destruct N as [_ N]. specialize (N eq_refl). discriminate.
  - destruct N as [N _]. specialize (N eq_refl). discriminate.
  - destruct (streq k PROTO); cbn [own proto]; [exact H|].
    apply setOwn_keys, H.
Qed.

Lemma feed_same_keys (rows : list Row) (old : Props jsstring)
    (goals : GoalsObject) :
  List.map fst old = List.map fst (own goals) ->
  List.map fst (IndexJs.feed toLowerCase rows old)
  = List.map fst (own (feed toLowerCase rows goals)).
Proof.
  revert old goals; induction rows as [|row rows IH]; intros old goals H;
    [exact H|].
  apply (IH (IndexJs.onData toLowerCase row old)
            (onData toLowerCase row goals)).
  apply onData_same_keys, H.
Qed.

(** C10.  For the same parsed rows the loader of [src/index.js] and the
    loader of the server create the same keys, in the same creation order
    and in the same enumeration order. *)
Theorem loaders_same_keys (rows : list Row) :
  List.map fst (IndexJs.loadGoals toLowerCase rows)
    = List.map fst (own (loadGoals toLowerCase rows))
  /\ IndexJs.ObjectKeys (IndexJs.loadGoals toLowerCase rows)
     = ObjectKeys (loadGoals toLowerCase rows).
Proof.
  assert (E : List.map fst (IndexJs.loadGoals toLowerCase rows)
              = List.map fst (own (loadGoals toLowerCase rows)))
    by (apply feed_same_keys; reflexivity).
  split; [exact E|].
  unfold IndexJs.ObjectKeys, ObjectKeys, ObjectEntries.
  apply ownPropertyOrder_keys, E.
Qed.

End LoadedMapping.

(** ** The routes *)

Lemma pick_empty (r : Q) : pick [] r = VUndefined.
Proof.
  unfold pick. destruct (_ <? 0)%Z; [reflexivity|].
  destruct (Z.to_nat _); reflexivity.
Qed.

Lemma nth_error_summary (goals : list Goal) (i : nat) (g : Goal) :
  nth_error goals i = Some g ->
  nth_error (List.map summary goals) i = Some (summary g).
Proof. intros H. rewrite nth_error_map, H. reflexivity. Qed.

Section Routes.

Variable toLowerCase : jsstring -> jsstring.

(** The route [/goal] trims the parameter before it searches: a name whose
    trimmed lowercase form is a key is answered with that one record. *)
Lemma goalHandler_exact (s : jsstring) (rows : list Row) (g : Goal) (rnd : Q) :
  trim s <> [] ->
  lookupOwn (toLowerCase (trim s)) (own (loadGoals toLowerCase rows))
    = Some g ->
  exists formatted,
    formatGoal (VGoal g) true = Some formatted
    /\ run (goalHandler toLowerCase (QString s)) (Some rows) rnd
       = [EvFetch; EvSend 200 (Text formatted)].
Proof.
  intros NE H. eexists. split; [reflexivity|].
  unfold goalHandler.
  destruct (trim s) as [|c q] eqn:T; [contradiction|].
  cbn [isEmpty run].
  unfold searchGoals, get. rewrite H. reflexivity.
Qed.

(** C5.  The difficulty filter keeps exactly the enumerated records whose
    difficulty field contains the token as a contiguous part, in
    enumeration order, and the route answers with their names; with the
    token U+2605 it keeps every record whose difficulty is one, two or
    three stars. *)
Theorem filteredGoals_contains_token (goals : GoalsObject) (level : jsstring) :
  (forall g, In g (filteredGoals goals level) <->
             In g (ObjectValues goals) /\ Substring level (difficulty g))
  /\ filteredGoals goals level
     = filter (fun g => includes (difficulty g) level) (ObjectValues goals)
  /\ (forall g, In g (ObjectValues goals) ->
                difficulty g = [STAR] \/ difficulty g = [STAR; STAR]
                \/ difficulty g = [STAR; STAR; STAR] ->
                In g (filteredGoals goals [STAR]))
  /\ (forall rows rnd,
        goals = loadGoals toLowerCase rows ->
        run (difficultyHandler toLowerCase level) (Some rows) rnd
        = match filteredGoals goals level with
          | [] => [EvFetch;
                   EvSend 404 (Text (js "No goals found with difficulty "
                                     ++ [QUOTE] ++ level ++ [QUOTE]))]
          | found => [EvFetch;
                      EvSend 200 (DifficultyJson level (List.length found)
                                                 (List.map name found))]
          end).
Proof.
  split; [|split; [|split]].
  - intros g. unfold filteredGoals. rewrite filter_In, includes_spec. tauto.
  - reflexivity.
  - intros g Hg Hd. apply filter_In. split; [exact Hg|].
    destruct Hd as [-> | [-> | ->]]; reflexivity.
  - intros rows rnd ->. unfold difficultyHandler. cbn [run].
    destruct (filteredGoals (loadGoals toLowerCase rows) level) as [|g found];
      [reflexivity|].
    cbn [List.length Nat.eqb run]. rewrite length_map. reflexivity.
Qed.

(** C6.  The [totalGoals] field of the [/goals] response is the number of
    records in the mapping the loader produced, which is the mapping it
    produces from the valid rows alone: rows with an empty Name or an empty
    Description are not counted. *)
Theorem goals_totalGoals (rows : list Row) (rnd : Q) :
  run (goalsHandler toLowerCase) (Some rows) rnd
    = [EvFetch;
       EvSend 200
         (GoalsJson (List.length (ObjectValues (loadGoals toLowerCase rows)))
                    (List.map summary
                       (ObjectValues (loadGoals toLowerCase rows))))]
  /\ List.length (ObjectValues (loadGoals toLowerCase rows))
     = List.length
         (ObjectValues (loadGoals toLowerCase (filter validRow rows)))
  /\ (List.length (ObjectValues (loadGoals toLowerCase rows))
      <= List.length (filter validRow rows))%nat.
Proof.
  split; [|split].
  - unfold goalsHandler. cbn [run]. rewrite length_map. reflexivity.
  - unfold loadGoals. rewrite feed_filter_valid. reflexivity.
  - unfold ObjectValues, ObjectEntries.
    rewrite length_map, ownPropertyOrder_length.
    apply (feed_length toLowerCase rows emptyObject).
Qed.

(** C7.  In the [/goals] response, the entry of each loaded record carries
    the first 100 code units of the record's description followed by three
    dots, and its [hasVideo] field is true exactly when the record's video
    link is not empty. *)
Theorem goals_entries (rows : list Row) (rnd : Q) :
  run (goalsHandler toLowerCase) (Some rows) rnd
    = [EvFetch;
       EvSend 200
         (GoalsJson (List.length (ObjectValues (loadGoals toLowerCase rows)))
                    (List.map summary
                       (ObjectValues (loadGoals toLowerCase rows))))]
  /\ forall i g,
       nth_error (ObjectValues (loadGoals toLowerCase rows)) i = Some g ->
       exists e,
         nth_error
           (List.map summary (ObjectValues (loadGoals toLowerCase rows))) i
           = Some e
         /\ Summary.name e = name g
         /\ Summary.description e = firstn 100 (description g) ++ js "..."
         /\ (Summary.hasVideo e = true <-> videoLink g <> []).
Proof.
  split.
  - unfold goalsHandler. cbn [run]. rewrite length_map. reflexivity.
  - intros i g H. exists (summary g).
    split; [apply nth_error_summary, H|].
    split; [reflexivity|]. split; [reflexivity|].
    simpl. destruct (videoLink g); simpl; split; congruence.
Qed.

(** C8.  A request to [/goal] whose [name] is missing, or is a string that
    trims to the empty string, is answered with status 400 and nothing
    else: the handler is the single [send], with no fetch of the sheet (and
    so no load and no search) before or after it. *)
Theorem goalHandler_blank (nameParam : QueryParam) :
  nameParam = QAbsent \/ (exists s, nameParam = QString s /\ trim s = []) ->
  goalHandler toLowerCase nameParam
    = Send 400 (Text (js "Please provide a goal name (?name=...)")) Return
  /\ forall sheet rnd,
       run (goalHandler toLowerCase nameParam) sheet rnd
         = [EvSend 400 (Text (js "Please provide a goal name (?name=...)"))]
       /\ fetches (goalHandler toLowerCase nameParam) sheet rnd = 0%nat.
Proof.
  intros H.
  assert (E : goalHandler toLowerCase nameParam
    = Send 400 (Text (js "Please provide a goal name (?name=...)")) Return).
  { destruct H as [-> | [s [-> T]]]; unfold goalHandler.
    - reflexivity.
    - rewrite T. reflexivity. }
  split; [exact E|]. intros sheet rnd. rewrite E. split; reflexivity.
Qed.

(** C9.  When the loaded mapping has no record, a request to
    [/goal/random] does not leave an exception uncaught: the selection is
    [undefined], [formatGoal] throws on it, and the [catch] block of the
    route logs the error and answers with status 500 and the text
    [Error fetching goals.], whatever the random draw. *)
Theorem randomHandler_empty (rows : list Row) (rnd : Q) :
  ObjectValues (loadGoals toLowerCase rows) = [] ->
  pick (ObjectValues (loadGoals toLowerCase rows)) rnd = VUndefined
  /\ formatGoal VUndefined true = None
  /\ run (randomHandler toLowerCase) (Some rows) rnd
     = [EvFetch; EvRandom; EvConsoleError;
        EvSend 500 (Text (js "Error fetching goals."))]
  /\ ~ In EvUncaught (run (randomHandler toLowerCase) (Some rows) rnd).
Proof.
  intros E.
  assert (R : run (randomHandler toLowerCase) (Some rows) rnd
     = [EvFetch; EvRandom; EvConsoleError;
        EvSend 500 (Text (js "Error fetching goals."))]).
  { unfold randomHandler. cbn [run]. rewrite E, pick_empty. reflexivity. }
  rewrite E, pick_empty, R. repeat split.
  intros [H | [H | [H | [H | []]]]]; discriminate.
Qed.

End Routes.

(** * Concrete checks *)

(** C1, as worded, fails: the query [ foo] lowercases and trims to the key
    [foo], yet [searchGoals], which does not trim, finds no exact match and
    returns the records of both [foo] and [foo bar]. *)
Lemma searchGoals_untrimmed_counterexample :
  ~ exactMatchAsStated asciiLower Samples.fooGoals (js " foo").
Proof.
  intros H. specialize (H (Samples.goal "Foo" "x") eq_refl).
  vm_compute in H. discriminate H.
Qed.

Lemma searchGoals_exact_witness :
  lookupOwn (asciiLower (js "FOO")) (own Samples.fooGoals)
    = Some (Samples.goal "Foo" "x")
  /\ searchGoals asciiLower Samples.fooGoals (js "FOO")
     = [VGoal (Samples.goal "Foo" "x")].
Proof.
  split; [reflexivity|].
  apply (searchGoals_exact asciiLower Samples.fooGoals (js "FOO")). reflexivity.
Defined.

(** C2, as worded, fails twice.  A tab does not separate tokens for
    [split(' ')]: the query [jano<TAB>skip] does not match the key
    [skip jano], which holds both whitespace-separated tokens.  And
    enumeration is not insertion order: with the keys [a1] and [10] created
    in this order, the query [1] returns the record of [10] first. *)
Lemma searchGoals_partial_counterexample :
  ~ partialMatchesAsStated asciiLower Samples.janoGoals Samples.tabQuery
  /\ ~ partialMatchesAsStated asciiLower
        (loadGoals asciiLower Samples.numberedRows) (js "1").
Proof.
  split; intros H; specialize (H eq_refl); vm_compute in H; discriminate H.
Qed.

Lemma searchGoals_partial_witness :
  lookupOwn (asciiLower (js "Jano Skip")) (own Samples.glitchGoals) = None
  /\ truthy (inherited Samples.glitchGoals (asciiLower (js "Jano Skip")))
     = false
  /\ searchGoals asciiLower Samples.glitchGoals (js "Jano Skip")
     = [VGoal (Samples.goal "Jano Skip Glitch" "x")]
  /\ In (VGoal (Samples.goal "Jano Skip Glitch" "x"))
        (searchGoals asciiLower Samples.glitchGoals (js "Jano Skip")).
Proof.
  split; [reflexivity|]. split; [reflexivity|].
  destruct (searchGoals_partial asciiLower Samples.glitchGoals (js "Jano Skip")
              eq_refl eq_refl) as [S [_ [_ [_ [J _]]]]].
  split.
  - rewrite S. reflexivity.
  - apply J; [reflexivity | left; reflexivity].
Defined.

Lemma loadGoals_records_iff_valid_rows_witness :
  (exists g,
      getGoal (loadGoals asciiLower Samples.duplicateRows) (js "jano skip")
      = Some g)
  /\ loadGoals asciiLower (filter validRow Samples.duplicateRows)
     = loadGoals asciiLower Samples.duplicateRows.
Proof.
  destruct (loadGoals_records_iff_valid_rows asciiLower Samples.duplicateRows)
    as [_ [_ [F [_ [_ E]]]]].
  split; [|exact E].
  apply (F (js "jano skip")).
  exists (Samples.row "Jano Skip" "first").
  split; [left; reflexivity | split; reflexivity].
Defined.

Lemma loadGoals_last_row_wins_witness :
  validRow (Samples.row " jano skip " "second") = true
  /\ rowKey asciiLower (Samples.row " jano skip " "second") = js "jano skip"
  /\ (forall later, In later [] -> validRow later = true ->
                    rowKey asciiLower later <> js "jano skip")
  /\ get (loadGoals asciiLower Samples.duplicateRows) (js "jano skip")
     = VGoal (mkGoal (js "jano skip") (js "second") [] [] []).
Proof.
  split; [reflexivity|]. split; [reflexivity|].
  split; [intros later []|].
  apply (loadGoals_last_row_wins asciiLower
           [Samples.row "Jano Skip" "first"; Samples.row "" "no name"] []
           (Samples.row " jano skip " "second") (js "jano skip"));
    [reflexivity | reflexivity | intros later []].
Defined.

Lemma filteredGoals_contains_token_witness :
  In (Samples.starred "B" [STAR; STAR]) (ObjectValues Samples.starGoals)
  /\ In (Samples.starred "B" [STAR; STAR])
        (filteredGoals Samples.starGoals [STAR])
  /\ ~ In (Samples.starred "C" []) (filteredGoals Samples.starGoals [STAR]).
Proof.
  destruct (filteredGoals_contains_token asciiLower Samples.starGoals [STAR])
    as [M [_ [S _]]].
  assert (I : In (Samples.starred "B" [STAR; STAR])
                 (ObjectValues Samples.starGoals))
    by (right; left; reflexivity).
  split; [exact I|]. split.
  - apply S; [exact I | right; left; reflexivity].
  - intros H. apply M in H as [_ [pre [post H]]].
    destruct pre; discriminate H.
Defined.

Lemma goals_entries_witness :
  exists e,
    nth_error (List.map summary
                 (ObjectValues (loadGoals asciiLower [Samples.longRow]))) 0
      = Some e
    /\ Summary.description e = repeat 97 100 ++ js "..."
    /\ Summary.hasVideo e = true.
Proof.
  destruct (goals_entries asciiLower [Samples.longRow] 0%Q) as [_ H].
  destruct (H 0%nat (rowGoal Samples.longRow) eq_refl) as [e [E [_ [D V]]]].
  exists e. split; [exact E|]. split; [exact D|].
  apply V. discriminate.
Defined.

Lemma goalHandler_blank_witness :
  (Samples.blankName = QAbsent
   \/ exists s, Samples.blankName = QString s /\ trim s = [])
  /\ goalHandler asciiLower Samples.blankName
     = Send 400 (Text (js "Please provide a goal name (?name=...)")) Return.
Proof.
  assert (B : Samples.blankName = QAbsent
              \/ exists s, Samples.blankName = QString s /\ trim s = [])
    by (right; exists [SPACE; TAB; SPACE]; split; reflexivity).
  split; [exact B|].
  apply (goalHandler_blank asciiLower Samples.blankName B).
Defined.

Lemma randomHandler_empty_witness :
  ObjectValues (loadGoals asciiLower [Samples.row "" "no name"]) = []
  /\ run (randomHandler asciiLower) (Some [Samples.row "" "no name"]) (1 # 2)
     = [EvFetch; EvRandom; EvConsoleError;
        EvSend 500 (Text (js "Error fetching goals."))].
Proof.
  split; [reflexivity|].
  apply (randomHandler_empty asciiLower [Samples.row "" "no name"] (1 # 2)).
  reflexivity.
Defined.

(** Further checks of the model on concrete inputs. *)

Example goals_totalGoals_example :
  run (goalsHandler asciiLower) (Some Samples.duplicateRows) 0%Q
  = [EvFetch;
     EvSend 200 (GoalsJson 1
       [Summary.mk (js "jano skip") (js "second...") [] [] false])].
Proof. reflexivity. Qed.

Example loaders_same_keys_example :
  IndexJs.ObjectKeys (IndexJs.loadGoals asciiLower
     [Samples.row "b" "x"; Samples.row "__proto__" "y"; Samples.row "7" "z"])
  = [js "7"; js "b"].
Proof. reflexivity. Qed.

(** A lookup of an inherited name is taken for an exact match. *)
Example searchGoals_constructor :
  searchGoals asciiLower Samples.fooGoals (js "constructor")
  = [VBuiltin (js "constructor")].
Proof. reflexivity. Qed.

(** A row named [__proto__] replaces the prototype and is not listed. *)
Example loadGoals_proto_row :
  loadGoals asciiLower [Samples.row "__proto__" "x"]
  = mkGoals [] (Some (Samples.goal "__proto__" "x")).
Proof. reflexivity. Qed.

(** * Further properties of the code *)

(** ** Trimming *)

Lemma trimStart_suffix (s : jsstring) :
  exists w, s = w ++ trimStart s /\ forallb isWhiteSpace w = true.
Proof.
  induction s as [|c s [w [E W]]]; [exists []; split; reflexivity|].
  simpl. destruct (isWhiteSpace c) eqn:C.
  - exists (c :: w). simpl. rewrite C, W.
    split; [f_equal; exact E | reflexivity].
  - exists []. split; reflexivity.
Qed.

Lemma trimStart_head (s : jsstring) (c : codeunit) (t : jsstring) :
  trimStart s = c :: t -> isWhiteSpace c = false.
Proof.
  induction s as [|x s IH]; simpl; [discriminate|].
  destruct (isWhiteSpace x) eqn:X; [exact IH|].
  intros [= -> _]; exact X.
Qed.

Lemma trimStart_clean (s : jsstring) :
  match s with [] => True | c :: _ => isWhiteSpace c = false end ->
  trimStart s = s.
Proof. destruct s as [|c s]; simpl; [reflexivity | intros ->; reflexivity]. Qed.

Lemma trimStart_idempotent (s : jsstring) :
  trimStart (trimStart s) = trimStart s.
Proof.
  apply trimStart_clean. destruct (trimStart s) as [|c t] eqn:E; [exact I|].
  exact (trimStart_head s c t E).
Qed.

Lemma trimStart_nil (s : jsstring) :
  trimStart s = [] <-> forallb isWhiteSpace s = true.
Proof.
  induction s as [|c s IH]; simpl; [tauto|].
  destruct (isWhiteSpace c); simpl; [exact IH|].
  split; discriminate.
Qed.

Lemma trimEnd_prefix (s : jsstring) :
  exists w, s = trimEnd s ++ w /\ forallb isWhiteSpace w = true.
Proof.
  destruct (trimStart_suffix (rev s)) as [w [E W]].
  exists (rev w). split.
  - unfold trimEnd. rewrite <- rev_app_distr, <- E, rev_involutive. reflexivity.
  - rewrite forallb_forall in *. intros x Hx. apply W, in_rev, Hx.
Qed.

(** Trimming leaves nothing exactly when the string is all whitespace. *)
Lemma trim_nil (s : jsstring) :
  trim s = [] <-> forallb isWhiteSpace s = true.
Proof.
  unfold trim, trimEnd. split.
  - intros H. apply (f_equal (@rev codeunit)) in H.
    rewrite rev_involutive in H. simpl in H.
    apply trimStart_nil in H.
    assert (T : trimStart s = []).
    { destruct (trimStart s) as [|c t] eqn:E; [reflexivity|].
      pose proof (trimStart_head s c t E) as C.
      rewrite forallb_forall in H.
      rewrite (H c) in C; [discriminate|].
      apply -> in_rev. left; reflexivity. }
    apply trimStart_nil, T.
  - intros H. apply trimStart_nil in H. rewrite H. reflexivity.
Qed.

(** A trimmed string has no whitespace at either end, so trimming it again
    changes nothing. *)
Lemma trim_idempotent (s : jsstring) : trim (trim s) = trim s.
Proof.
  unfold trim.
  assert (C : trimStart (trimEnd (trimStart s)) = trimEnd (trimStart s)).
  { apply trimStart_clean.
    destruct (trimEnd (trimStart s)) as [|c u] eqn:E; [exact I|].
    destruct (trimEnd_prefix (trimStart s)) as [w [P _]].
    rewrite E in P. simpl in P. apply (trimStart_head s c (u ++ w)).
    exact P. }
  rewrite C. unfold trimEnd at 1 2.
  rewrite rev_involutive, trimStart_idempotent. reflexivity.
Qed.

Lemma trimmedOrEmpty_trimmed (c : option jsstring) :
  trim (trimmedOrEmpty c) = trimmedOrEmpty c.
Proof.
  unfold trimmedOrEmpty. destruct (truthyCell c);
    [apply trim_idempotent | reflexivity].
Qed.

(** ** The loaded records *)

Section LoadedRecords.

Variable toLowerCase : jsstring -> jsstring.

Lemma rowGoal_normalised (row : Row) :
  rowKey toLowerCase row = toLowerCase (name (rowGoal row))
  /\ trim (name (rowGoal row)) = name (rowGoal row)
  /\ trim (description (rowGoal row)) = description (rowGoal row)
  /\ trim (levels (rowGoal row)) = levels (rowGoal row)
  /\ trim (difficulty (rowGoal row)) = difficulty (rowGoal row)
  /\ trim (videoLink (rowGoal row)) = videoLink (rowGoal row).
Proof.
  unfold rowKey, rowGoal; cbn [name description levels difficulty videoLink].
  repeat split; auto using trim_idempotent, trimmedOrEmpty_trimmed.
Qed.

(** X1.  Every record of the loaded mapping, whether enumerated or read by
    its key, is stored under the lowercase of its own [name], and each of
    its five fields is already trimmed. *)
Theorem loadGoals_records_normalised (rows : list Row) (k : jsstring)
    (g : Goal) :
  In (k, g) (ObjectEntries (loadGoals toLowerCase rows))
  \/ get (loadGoals toLowerCase rows) k = VGoal g ->
  k = toLowerCase (name g)
  /\ trim (name g) = name g
  /\ trim (description g) = description g
  /\ trim (levels g) = levels g
  /\ trim (difficulty g) = difficulty g
  /\ trim (videoLink g) = videoLink g.
Proof.
  intros H.
  assert (G : getGoal (loadGoals toLowerCase rows) k = Some g).
  { destruct H as [H | H].
    - apply ObjectEntries_getGoal; [apply loadGoals_NoDup | exact H].
    - unfold getGoal. rewrite H. reflexivity. }
  apply getGoal_provenance in G as [row [_ [_ [K ->]]]].
  rewrite <- K. apply rowGoal_normalised.
Qed.

Lemma ObjectKeys_NoDup (goals : GoalsObject) :
  NoDup (List.map fst (own goals)) -> NoDup (ObjectKeys goals).
Proof.
  intros ND. unfold ObjectKeys, ObjectEntries.
  apply (Permutation_NoDup (l := List.map fst (own goals))); [|exact ND].
  apply Permutation_map. symmetry. apply ownPropertyOrder_perm.
Qed.

(** X2.  The enumeration of the loaded mapping lists no key twice, and the
    number of records it holds is the number of distinct keys of the valid
    rows, the key [__proto__] not counted. *)
Theorem loadGoals_counts_distinct_keys (rows : list Row) :
  NoDup (ObjectKeys (loadGoals toLowerCase rows))
  /\ List.length (ObjectValues (loadGoals toLowerCase rows))
     = List.length
         (nodup (list_eq_dec N.eq_dec)
            (filter (fun k => negb (streq k PROTO))
               (List.map (rowKey toLowerCase) (filter validRow rows)))).
Proof.
  assert (ND : NoDup (ObjectKeys (loadGoals toLowerCase rows)))
    by (apply ObjectKeys_NoDup, loadGoals_NoDup).
  split; [exact ND|].
  unfold ObjectValues. rewrite length_map.
  rewrite <- (length_map fst (ObjectEntries (loadGoals toLowerCase rows))).
  change (List.map fst (ObjectEntries (loadGoals toLowerCase rows)))
    with (ObjectKeys (loadGoals toLowerCase rows)).
  apply Permutation_length, NoDup_Permutation;
    [exact ND | apply NoDup_nodup|].
  intros k. rewrite nodup_In, filter_In, in_map_iff, loadGoals_keys.
  rewrite negb_true_iff, streq_neq. split.
  - intros [NE [row [I [V K]]]]. split; [|exact NE].
    exists row. split; [exact K|]. apply filter_In. auto.
  - intros [[row [K I]] NE]. split; [exact NE|].
    apply filter_In in I as [I V]. exists row. auto.
Qed.

End LoadedRecords.

Lemma loadGoals_records_normalised_witness :
  (In (js "jano skip", mkGoal (js "jano skip") (js "second") [] [] [])
      (ObjectEntries (loadGoals asciiLower Samples.duplicateRows))
   \/ get (loadGoals asciiLower Samples.duplicateRows) (js "jano skip")
      = VGoal (mkGoal (js "jano skip") (js "second") [] [] []))
  /\ js "jano skip" = asciiLower (js "jano skip")
  /\ trim (js "second") = js "second".
Proof.
  assert (H :
    In (js "jano skip", mkGoal (js "jano skip") (js "second") [] [] [])
       (ObjectEntries (loadGoals asciiLower Samples.duplicateRows))
    \/ get (loadGoals asciiLower Samples.duplicateRows) (js "jano skip")
       = VGoal (mkGoal (js "jano skip") (js "second") [] [] []))
    by (right; reflexivity).
  split; [exact H|].
  destruct (loadGoals_records_normalised asciiLower Samples.duplicateRows
              _ _ H) as [K [_ [D _]]].
  split; [exact K | exact D].
Defined.

(** ** The partial-match rule *)

Lemma Substring_trans (a b c : jsstring) :
  Substring a b -> Substring b c -> Substring a c.
Proof.
  intros [p1 [q1 ->]] [p2 [q2 ->]]. exists (p2 ++ p1), (q1 ++ q2).
  rewrite <- !app_assoc. reflexivity.
Qed.

Lemma glue_Substring (sep : codeunit) (ws : list jsstring) (w : jsstring) :
  In w ws -> Substring w (glue sep ws).
Proof.
  induction ws as [|x ws IH]; [intros []|].
  intros [-> | H].
  - destruct ws as [|y ws]; simpl.
    + exists [], []. rewrite app_nil_r. reflexivity.
    + exists [], (sep :: glue sep (y :: ws)). reflexivity.
  - destruct ws as [|y ws]; [destruct H|].
    destruct (IH H) as [pre [post E]].
    exists (x ++ sep :: pre), post.
    change (glue sep (x :: y :: ws)) with (x ++ sep :: glue sep (y :: ws)).
    rewrite E, <- app_assoc. reflexivity.
Qed.

(** Every piece of a split occurs in the string. *)
Lemma split_Substring (sep : codeunit) (s w : jsstring) :
  In w (split sep s) -> Substring w s.
Proof.
  intros H. pose proof (glue_Substring sep _ _ H) as G.
  rewrite glue_split in G. exact G.
Qed.

(** The first test of the partial-match condition is implied by the
    second. *)
Lemma partialMatch_forallb (queryLower key : jsstring) :
  partialMatch queryLower key
  = forallb (fun word => includes key word) (split SPACE queryLower).
Proof.
  unfold partialMatch. destruct (includes key queryLower) eqn:E; [|reflexivity].
  simpl. symmetry. apply forallb_forall. intros w Hw.
  apply includes_spec. apply includes_spec in E.
  exact (Substring_trans _ _ _ (split_Substring SPACE _ _ Hw) E).
Qed.

Lemma filter_ext_in' {A : Type} (f g : A -> bool) (l : list A) :
  (forall x, In x l -> f x = g x) -> filter f l = filter g l.
Proof.
  induction l as [|x l IH]; intros H; simpl; [reflexivity|].
  rewrite (H x (or_introl eq_refl)), IH; [reflexivity|].
  intros y Hy; apply H; right; exact Hy.
Qed.

Lemma forallb_false_witness {A : Type} (f : A -> bool) (l : list A) :
  forallb f l = false -> exists x, In x l /\ f x = false.
Proof.
  induction l as [|x l IH]; simpl; [discriminate|].
  destruct (f x) eqn:E; simpl.
  - intros H. destruct (IH H) as [y [I F]]. exists y; auto.
  - intros _. exists x; auto.
Qed.

Lemma forallb_same_failures {A : Type} (f : A -> bool) (l1 l2 : list A) :
  (forall x, f x = false -> (In x l1 <-> In x l2)) ->
  forallb f l1 = forallb f l2.
Proof.
  intros H. destruct (forallb f l1) eqn:E1, (forallb f l2) eqn:E2;
    try reflexivity; exfalso.
  - apply forallb_false_witness in E2 as [x [I F]].
    rewrite forallb_forall in E1. rewrite (E1 x) in F; [discriminate|].
    apply (H x F), I.
  - apply forallb_false_witness in E1 as [x [I F]].
    rewrite forallb_forall in E2. rewrite (E2 x) in F; [discriminate|].
    apply (H x F), I.
Qed.

Lemma all_spaces_pieces (q w : jsstring) :
  forallb (N.eqb SPACE) q = true -> In w (split SPACE q) -> w = [].
Proof.
  intros Q Hw. destruct w as [|c w]; [reflexivity|]. exfalso.
  apply (split_no_sep SPACE q (c :: w) Hw).
  destruct (split_Substring SPACE q (c :: w) Hw) as [pre [post E]].
  rewrite forallb_forall in Q.
  assert (I : In c q) by (rewrite E; apply in_or_app; right; left; reflexivity).
  apply Q, N.eqb_eq in I. left. symmetry. exact I.
Qed.

Section PartialRule.

Variable toLowerCase : jsstring -> jsstring.

(** X3.  When the exact lookup finds nothing, the result of [searchGoals]
    is decided by the word test alone: a key is matched exactly when it
    contains every piece of the lowercased query cut at spaces.  The test
    [key.includes(queryLower)] never adds a match. *)
Theorem searchGoals_word_test_decides (goals : GoalsObject)
    (query : jsstring) :
  truthy (get goals (toLowerCase query)) = false ->
  searchGoals toLowerCase goals query
  = List.map (fun e => VGoal (snd e))
      (filter (fun e => forallb (fun word => includes (fst e) word)
                                (split SPACE (toLowerCase query)))
              (ObjectEntries goals)).
Proof.
  intros H. unfold searchGoals. rewrite H. f_equal.
  apply filter_ext_in'. intros e _. apply partialMatch_forallb.
Qed.

(** X4.  The order of the words of a query, their repetition and the
    number of spaces between them do not matter: two queries whose
    lowercase forms have the same non-empty pieces, and neither of which is
    found by the exact lookup, give the same result. *)
Theorem searchGoals_word_order (goals : GoalsObject) (q1 q2 : jsstring) :
  truthy (get goals (toLowerCase q1)) = false ->
  truthy (get goals (toLowerCase q2)) = false ->
  (forall word, word <> [] ->
                (In word (split SPACE (toLowerCase q1))
                 <-> In word (split SPACE (toLowerCase q2)))) ->
  searchGoals toLowerCase goals q1 = searchGoals toLowerCase goals q2.
Proof.
  intros H1 H2 Same. unfold searchGoals. rewrite H1, H2. f_equal.
  apply filter_ext_in'. intros e _. rewrite !partialMatch_forallb.
  apply forallb_same_failures. intros word F. apply Same.
  intros ->. rewrite includes_empty in F. discriminate.
Qed.

(** X5.  A query that is empty or made of spaces only, and that the exact
    lookup does not find, matches every key: [searchGoals] returns all the
    records, in enumeration order. *)
Theorem searchGoals_blank_query_returns_all (goals : GoalsObject)
    (query : jsstring) :
  forallb (N.eqb SPACE) (toLowerCase query) = true ->
  truthy (get goals (toLowerCase query)) = false ->
  searchGoals toLowerCase goals query = List.map VGoal (ObjectValues goals).
Proof.
  intros Q H. unfold searchGoals, ObjectValues. rewrite H, map_map.
  f_equal. induction (ObjectEntries goals) as [|e l IH]; [reflexivity|].
  simpl. rewrite partialMatch_forallb.
  replace (forallb (fun word => includes (fst e) word)
                   (split SPACE (toLowerCase query))) with true.
  - f_equal. exact IH.
  - symmetry. apply forallb_forall. intros w Hw.
    rewrite (all_spaces_pieces _ _ Q Hw). apply includes_empty.
Qed.

End PartialRule.

Lemma searchGoals_word_test_decides_witness :
  truthy (get Samples.glitchGoals (asciiLower (js "skip"))) = false
  /\ searchGoals asciiLower Samples.glitchGoals (js "skip")
     = [VGoal (Samples.goal "Jano Skip Glitch" "x");
        VGoal (Samples.goal "Flame Skip" "y")].
Proof.
  split; [reflexivity|].
  rewrite (searchGoals_word_test_decides asciiLower Samples.glitchGoals
             (js "skip") eq_refl).
  reflexivity.
Defined.

Lemma searchGoals_word_order_witness :
  truthy (get Samples.glitchGoals (asciiLower (js "jano skip"))) = false
  /\ truthy (get Samples.glitchGoals (asciiLower (js "Skip  Jano"))) = false
  /\ (forall word, word <> [] ->
                   (In word (split SPACE (asciiLower (js "jano skip")))
                    <-> In word (split SPACE (asciiLower (js "Skip  Jano")))))
  /\ searchGoals asciiLower Samples.glitchGoals (js "jano skip")
     = searchGoals asciiLower Samples.glitchGoals (js "Skip  Jano").
Proof.
  assert (S : forall word, word <> [] ->
             (In word (split SPACE (asciiLower (js "jano skip")))
              <-> In word (split SPACE (asciiLower (js "Skip  Jano"))))).
  { intros word NE. simpl. split.
    - intros [<- | [<- | []]]; [right; right; left | left]; reflexivity.
    - intros [<- | [<- | [<- | []]]];
        [right; left; reflexivity | contradiction NE; reflexivity
         | left; reflexivity]. }
  split; [reflexivity|]. split; [reflexivity|]. split; [exact S|].
  apply (searchGoals_word_order asciiLower Samples.glitchGoals
           (js "jano skip") (js "Skip  Jano") eq_refl eq_refl S).
Defined.

Lemma searchGoals_blank_query_returns_all_witness :
  forallb (N.eqb SPACE) (asciiLower (js "  ")) = true
  /\ truthy (get Samples.fooGoals (asciiLower (js "  "))) = false
  /\ searchGoals asciiLower Samples.fooGoals (js "  ")
     = [VGoal (Samples.goal "Foo" "x"); VGoal (Samples.goal "Foo Bar" "y")].
Proof.
  split; [reflexivity|]. split; [reflexivity|].
  apply (searchGoals_blank_query_returns_all asciiLower Samples.fooGoals
           (js "  ")); reflexivity.
Defined.

(** ** The lookup routes *)

Lemma view_truthy (v : JSValue) : truthy v = true -> exists w, view v = Some w.
Proof. destruct v; simpl; try discriminate; eexists; reflexivity. Qed.

Lemma formatGoal_truthy (v : JSValue) (includeAll : bool) :
  truthy v = true -> exists text, formatGoal v includeAll = Some text.
Proof.
  intros T. unfold formatGoal. destruct (view_truthy v T) as [w ->].
  eexists; reflexivity.
Qed.

Lemma compactText_truthy (v : JSValue) :
  truthy v = true -> exists text, compactText v = Some text.
Proof.
  intros T. unfold compactText. destruct (view_truthy v T) as [w ->].
  eexists; reflexivity.
Qed.

Lemma names_truthy (vs : list JSValue) :
  (forall v, In v vs -> truthy v = true) -> exists ns, names vs = Some ns.
Proof.
  induction vs as [|v vs IH]; intros H; simpl; [eexists; reflexivity|].
  destruct (view_truthy v (H v (or_introl eq_refl))) as [w ->].
  destruct IH as [ns ->]; [intros x Hx; apply H; right; exact Hx|].
  eexists; reflexivity.
Qed.

Lemma names_goals (gs : list Goal) :
  names (List.map VGoal gs) = Some (List.map (fun g => Some (name g)) gs).
Proof.
  induction gs as [|g gs IH]; simpl; [reflexivity|]. rewrite IH. reflexivity.
Qed.

Lemma firstn_incl {A : Type} (n : nat) (l : list A) (x : A) :
  In x (firstn n l) -> In x l.
Proof.
  intros H. rewrite <- (firstn_skipn n l). apply in_or_app. left; exact H.
Qed.

Section LookupRoutes.

Variable toLowerCase : jsstring -> jsstring.

(** [searchGoals] never returns [undefined]: an exact hit is returned only
    when truthy, and the partial matches are records. *)
Lemma searchGoals_truthy (goals : GoalsObject) (query : jsstring)
    (v : JSValue) :
  In v (searchGoals toLowerCase goals query) -> truthy v = true.
Proof.
  unfold searchGoals.
  destruct (truthy (get goals (toLowerCase query))) eqn:T.
  - intros [<- | []]. exact T.
  - intros H. apply in_map_iff in H as [e [<- _]]. reflexivity.
Qed.

(** The one status that each lookup route sends. *)
Lemma goalHandler_statuses (s : jsstring) (sheet : option (list Row))
    (rnd : Q) :
  statuses (run (goalHandler toLowerCase (QString s)) sheet rnd)
  = [if isEmpty (trim s) then 400%nat
     else match sheet with
          | None => 500%nat
          | Some rows =>
              match searchGoals toLowerCase (loadGoals toLowerCase rows)
                      (trim s) with
              | [] => 404%nat
              | _ => 200%nat
              end
          end].
Proof.
  unfold goalHandler. destruct (isEmpty (trim s)); [reflexivity|].
  destruct sheet as [rows|]; [|reflexivity]. cbn [run].
  pose proof (searchGoals_truthy (loadGoals toLowerCase rows) (trim s)) as T.
  destruct (searchGoals toLowerCase (loadGoals toLowerCase rows) (trim s))
    as [|m [|m' rest]]; [reflexivity| |].
  - destruct (formatGoal_truthy m true (T m (or_introl eq_refl))) as [t ->].
    reflexivity.
  - destruct (names_truthy (firstn 5 (m :: m' :: rest))) as [ns ->];
      [intros v Hv; apply T, (firstn_incl 5), Hv | reflexivity].
Qed.

Lemma compactHandler_statuses (s : jsstring) (sheet : option (list Row))
    (rnd : Q) :
  statuses (run (compactHandler toLowerCase (QString s)) sheet rnd)
  = [if isEmpty (trim s) then 400%nat
     else match sheet with
          | None => 500%nat
          | Some rows =>
              match searchGoals toLowerCase (loadGoals toLowerCase rows)
                      (trim s) with
              | [] => 404%nat
              | _ => 200%nat
              end
          end].
Proof.
  unfold compactHandler. destruct (isEmpty (trim s)); [reflexivity|].
  destruct sheet as [rows|]; [|reflexivity]. cbn [run].
  pose proof (searchGoals_truthy (loadGoals toLowerCase rows) (trim s)) as T.
  destruct (searchGoals toLowerCase (loadGoals toLowerCase rows) (trim s))
    as [|m [|m' rest]]; [reflexivity| |].
  - destruct (compactText_truthy m (T m (or_introl eq_refl))) as [t ->].
    reflexivity.
  - destruct (names_truthy (firstn 3 (m :: m' :: rest))) as [ns ->];
      [intros v Hv; apply T, (firstn_incl 3), Hv | reflexivity].
Qed.

Lemma isEmpty_trim (s : jsstring) :
  isEmpty (trim s) = forallb isWhiteSpace s.
Proof.
  destruct (forallb isWhiteSpace s) eqn:E.
  - apply trim_nil in E. rewrite E. reflexivity.
  - destruct (trim s) eqn:T; [|reflexivity].
    apply trim_nil in T. congruence.
Qed.

(** X6.  For a string parameter, [/goal] and [/goal/compact] each send
    exactly one response, with the same status, whatever the sheet and the
    fetch outcome: the compact route finds a goal exactly when the full
    route does. *)
Theorem lookup_routes_same_status (s : jsstring) (sheet : option (list Row))
    (rnd : Q) :
  statuses (run (compactHandler toLowerCase (QString s)) sheet rnd)
  = statuses (run (goalHandler toLowerCase (QString s)) sheet rnd)
  /\ List.length
       (statuses (run (goalHandler toLowerCase (QString s)) sheet rnd))
     = 1%nat
  /\ ~ In EvUncaught (run (goalHandler toLowerCase (QString s)) sheet rnd).
Proof.
  rewrite compactHandler_statuses, goalHandler_statuses.
  split; [reflexivity|]. split; [reflexivity|].
  unfold goalHandler. destruct (isEmpty (trim s)).
  - intros [H | []]; discriminate.
  - destruct sheet as [rows|]; cbn [run];
      [|intros [H | [H | [H | []]]]; discriminate].
    destruct (searchGoals toLowerCase (loadGoals toLowerCase rows) (trim s))
      as [|m [|m' rest]].
    + intros [H | [H | []]]; discriminate.
    + destruct (formatGoal m true);
        [intros [H | [H | []]] | intros [H | [H | [H | []]]]]; discriminate.
    + destruct (names (firstn 5 (m :: m' :: rest)));
        [intros [H | [H | []]] | intros [H | [H | [H | []]]]]; discriminate.
Qed.

(** X7.  What the status of [/goal] means, for a string parameter: 400
    exactly when the name consists of whitespace only (or is empty); 500
    exactly when the name is not blank and the fetch failed; otherwise 404
    or 200.  In particular no sheet that was fetched makes the route answer
    500. *)
Theorem goalHandler_status_meaning (s : jsstring) (sheet : option (list Row))
    (rnd : Q) :
  exists status,
    statuses (run (goalHandler toLowerCase (QString s)) sheet rnd) = [status]
    /\ (status = 400%nat <-> forallb isWhiteSpace s = true)
    /\ (status = 500%nat <-> forallb isWhiteSpace s = false /\ sheet = None)
    /\ (status = 400 \/ status = 500 \/ status = 404 \/ status = 200)%nat.
Proof.
  rewrite goalHandler_statuses, isEmpty_trim. eexists. split; [reflexivity|].
  destruct (forallb isWhiteSpace s).
  - split; [tauto|]. split; [|auto].
    split; [discriminate | intros [H _]; discriminate].
  - destruct sheet as [rows|].
    + destruct (searchGoals toLowerCase (loadGoals toLowerCase rows) (trim s));
        (split; [split; discriminate|]);
        (split; [split; [discriminate | intros [_ H]; discriminate] | auto]).
    + split; [split; discriminate|]. split; [tauto | auto].
Qed.

End LookupRoutes.

Section LookupAnswers.

Variable toLowerCase : jsstring -> jsstring.

Lemma searchGoals_partial_branch (goals : GoalsObject) (query : jsstring) :
  truthy (get goals (toLowerCase query)) = false ->
  searchGoals toLowerCase goals query
  = List.map (fun e => VGoal (snd e))
      (filter (fun e => partialMatch (toLowerCase query) (fst e))
              (ObjectEntries goals)).
Proof. intros H. unfold searchGoals. rewrite H. reflexivity. Qed.

Lemma nonblank_isEmpty (s : jsstring) :
  trim s <> [] -> isEmpty (trim s) = false.
Proof. destruct (trim s); [contradiction | reflexivity]. Qed.

(** X8.  When the trimmed, lowercased name is found neither by the exact
    lookup nor in any key by the partial rule, [/goal] answers 404, and the
    message quotes the [name] parameter as it was received, untrimmed and
    in its original case. *)
Theorem goalHandler_not_found (s : jsstring) (rows : list Row) (rnd : Q) :
  trim s <> [] ->
  truthy (get (loadGoals toLowerCase rows) (toLowerCase (trim s))) = false ->
  (forall e, In e (own (loadGoals toLowerCase rows)) ->
             partialMatch (toLowerCase (trim s)) (fst e) = false) ->
  run (goalHandler toLowerCase (QString s)) (Some rows) rnd
  = [EvFetch;
     EvSend 404 (Text (js "Goal " ++ [QUOTE] ++ s ++ [QUOTE]
         ++ js " not found. Check spelling or try another goal."))].
Proof.
  intros NB G P. unfold goalHandler. rewrite (nonblank_isEmpty s NB).
  cbn [run]. rewrite (searchGoals_partial_branch _ _ G), filter_nil;
    [reflexivity|].
  intros e He. apply P, ownPropertyOrder_In, He.
Qed.

(** X9.  When the exact lookup finds nothing and exactly one key matches
    by the partial rule, [/goal] answers 200 with the full format of that
    key's record, as it does for an exact match. *)
Theorem goalHandler_unique_partial_match (s : jsstring) (rows : list Row)
    (rnd : Q) (k : jsstring) (g : Goal) :
  trim s <> [] ->
  truthy (get (loadGoals toLowerCase rows) (toLowerCase (trim s))) = false ->
  filter (fun e => partialMatch (toLowerCase (trim s)) (fst e))
         (ObjectEntries (loadGoals toLowerCase rows)) = [(k, g)] ->
  exists formatted,
    formatGoal (VGoal g) true = Some formatted
    /\ run (goalHandler toLowerCase (QString s)) (Some rows) rnd
       = [EvFetch; EvSend 200 (Text formatted)].
Proof.
  intros NB G F. eexists. split; [reflexivity|].
  unfold goalHandler. rewrite (nonblank_isEmpty s NB). cbn [run].
  rewrite (searchGoals_partial_branch _ _ G), F. reflexivity.
Qed.

(** X10.  When the exact lookup finds nothing and two or more keys match,
    both lookup routes answer 200 with the names of the first matches in
    enumeration order, joined by a comma and a space: at most five for
    [/goal], at most three for [/goal/compact]. *)
Theorem lookup_routes_multiple_matches (s : jsstring) (rows : list Row)
    (rnd : Q) (found : list Goal) :
  trim s <> [] ->
  truthy (get (loadGoals toLowerCase rows) (toLowerCase (trim s))) = false ->
  List.map snd
    (filter (fun e => partialMatch (toLowerCase (trim s)) (fst e))
            (ObjectEntries (loadGoals toLowerCase rows))) = found ->
  (2 <= List.length found)%nat ->
  run (goalHandler toLowerCase (QString s)) (Some rows) rnd
  = [EvFetch;
     EvSend 200 (Text (js "Multiple goals found: "
       ++ join (js ", ") (List.map (fun g => Some (name g)) (firstn 5 found))
       ++ js ". Please be more specific!"))]
  /\ run (compactHandler toLowerCase (QString s)) (Some rows) rnd
     = [EvFetch;
        EvSend 200 (Text (js "Multiple found: "
          ++ join (js ", ") (List.map (fun g => Some (name g)) (firstn 3 found))
          ++ js ". Be specific!"))].
Proof.
  intros NB G F L.
  assert (S : searchGoals toLowerCase (loadGoals toLowerCase rows) (trim s)
              = List.map VGoal found).
  { rewrite (searchGoals_partial_branch _ _ G), <- F, map_map. reflexivity. }
  destruct found as [|g1 [|g2 rest]]; simpl in L; try lia.
  unfold goalHandler, compactHandler. rewrite (nonblank_isEmpty s NB).
  cbn [run]. rewrite S.
  change (List.map VGoal (g1 :: g2 :: rest))
    with (VGoal g1 :: VGoal g2 :: List.map VGoal rest).
  cbv iota beta.
  change (VGoal g1 :: VGoal g2 :: List.map VGoal rest)
    with (List.map VGoal (g1 :: g2 :: rest)).
  rewrite !firstn_map, !names_goals. split; reflexivity.
Qed.

End LookupAnswers.

Lemma goalHandler_not_found_witness :
  trim (js " DoesNotExist ") <> []
  /\ truthy (get (loadGoals asciiLower Samples.duplicateRows)
                 (asciiLower (trim (js " DoesNotExist ")))) = false
  /\ (forall e, In e (own (loadGoals asciiLower Samples.duplicateRows)) ->
                partialMatch (asciiLower (trim (js " DoesNotExist "))) (fst e)
                = false)
  /\ run (goalHandler asciiLower (QString (js " DoesNotExist ")))
         (Some Samples.duplicateRows) 0%Q
     = [EvFetch;
        EvSend 404 (Text (js "Goal " ++ [QUOTE] ++ js " DoesNotExist "
            ++ [QUOTE]
            ++ js " not found. Check spelling or try another goal."))].
Proof.
  assert (P : forall e,
             In e (own (loadGoals asciiLower Samples.duplicateRows)) ->
             partialMatch (asciiLower (trim (js " DoesNotExist "))) (fst e)
             = false)
    by (intros e [<- | []]; reflexivity).
  split; [discriminate|]. split; [reflexivity|]. split; [exact P|].
  apply (goalHandler_not_found asciiLower (js " DoesNotExist ")
           Samples.duplicateRows 0%Q); [discriminate | reflexivity | exact P].
Defined.

Lemma goalHandler_unique_partial_match_witness :
  trim (js "Jano") <> []
  /\ truthy (get (loadGoals asciiLower MoreSamples.glitchRows)
                 (asciiLower (trim (js "Jano")))) = false
  /\ filter (fun e => partialMatch (asciiLower (trim (js "Jano"))) (fst e))
       (ObjectEntries (loadGoals asciiLower MoreSamples.glitchRows))
     = [(js "jano skip glitch", Samples.goal "Jano Skip Glitch" "x")]
  /\ run (goalHandler asciiLower (QString (js "Jano")))
         (Some MoreSamples.glitchRows) 0%Q
     = [EvFetch; EvSend 200 (Text (js "**Jano Skip Glitch**: x"))].
Proof.
  split; [discriminate|]. split; [reflexivity|]. split; [reflexivity|].
  destruct (goalHandler_unique_partial_match asciiLower (js "Jano")
              MoreSamples.glitchRows 0%Q (js "jano skip glitch")
              (Samples.goal "Jano Skip Glitch" "x"))
    as [formatted [F R]]; [discriminate | reflexivity | reflexivity |].
  rewrite R. injection F as <-. reflexivity.
Defined.

Lemma lookup_routes_multiple_matches_witness :
  trim (js "skip") <> []
  /\ truthy (get (loadGoals asciiLower MoreSamples.skipRows)
                 (asciiLower (trim (js "skip")))) = false
  /\ List.map snd
       (filter (fun e => partialMatch (asciiLower (trim (js "skip"))) (fst e))
               (ObjectEntries (loadGoals asciiLower MoreSamples.skipRows)))
     = MoreSamples.skipGoals
  /\ (2 <= List.length MoreSamples.skipGoals)%nat
  /\ run (goalHandler asciiLower (QString (js "skip")))
         (Some MoreSamples.skipRows) 0%Q
     = [EvFetch;
        EvSend 200 (Text
          (js "Multiple goals found: Skip A, Skip B, Skip C, Skip D, Skip E"
           ++ js ". Please be more specific!"))]
  /\ run (compactHandler asciiLower (QString (js "skip")))
         (Some MoreSamples.skipRows) 0%Q
     = [EvFetch;
        EvSend 200 (Text (js
          "Multiple found: Skip A, Skip B, Skip C. Be specific!"))].
Proof.
  split; [discriminate|]. split; [reflexivity|]. split; [reflexivity|].
  split; [simpl; lia|].
  apply (lookup_routes_multiple_matches asciiLower (js "skip")
           MoreSamples.skipRows 0%Q MoreSamples.skipGoals);
    [discriminate | reflexivity | reflexivity | simpl; lia].
Defined.

(** ** The random route *)



Section RandomRoute.

Variable toLowerCase : jsstring -> jsstring.


End RandomRoute.


Example randomHandler_half :
  run (randomHandler asciiLower) (Some MoreSamples.glitchRows) (1 # 2)
  = [EvFetch; EvRandom; EvSend 200 (Text (js "**Flame Skip**: y"))].
Proof. reflexivity. Qed.

(** ** The difficulty route *)

Lemma filter_filter_implied {A : Type} (f1 f2 : A -> bool) (l : list A) :
  (forall x, f2 x = true -> f1 x = true) ->
  filter f2 (filter f1 l) = filter f2 l.
Proof.
  intros H. induction l as [|x l IH]; simpl; [reflexivity|].
  destruct (f1 x) eqn:E1; simpl.
  - rewrite IH. reflexivity.
  - destruct (f2 x) eqn:E2; [rewrite (H x E2) in E1; discriminate | exact IH].
Qed.

(** X12.  A longer token narrows the difficulty filter: when [short] occurs
    in [long], filtering by [long] gives the same list as filtering by
    [short] and then by [long], so every record found for [long] is found
    for [short]. *)
Theorem filteredGoals_narrows (goals : GoalsObject) (short long : jsstring) :
  Substring short long ->
  filteredGoals goals long
  = filter (fun goal => includes (difficulty goal) long)
           (filteredGoals goals short)
  /\ forall g, In g (filteredGoals goals long) ->
               In g (filteredGoals goals short).
Proof.
  intros S.
  assert (E : filteredGoals goals long
              = filter (fun goal => includes (difficulty goal) long)
                       (filteredGoals goals short)).
  { unfold filteredGoals. symmetry. apply filter_filter_implied.
    intros g H. apply includes_spec. apply includes_spec in H.
    exact (Substring_trans _ _ _ S H). }
  split; [exact E|].
  intros g H. rewrite E in H. apply filter_In in H. tauto.
Qed.

Section DifficultyRoute.

Variable toLowerCase : jsstring -> jsstring.


End DifficultyRoute.

Lemma filteredGoals_narrows_witness :
  Substring [STAR] [STAR; STAR]
  /\ filteredGoals Samples.starGoals [STAR; STAR]
     = [Samples.starred "B" [STAR; STAR];
        Samples.starred "D" [STAR; STAR; STAR]]
  /\ In (Samples.starred "D" [STAR; STAR; STAR])
        (filteredGoals Samples.starGoals [STAR]).
Proof.
  assert (S : Substring [STAR] [STAR; STAR])
    by (exists [], [STAR]; reflexivity).
  split; [exact S|]. split; [reflexivity|].
  apply (proj2 (filteredGoals_narrows Samples.starGoals [STAR] [STAR; STAR] S)).
  right; left; reflexivity.
Defined.


(** ** The formatter *)

Lemma appendIf_nil (label x : jsstring) :
  label <> [] -> (appendIf label (Some x) = [] <-> x = []).
Proof.
  intros L. unfold appendIf. simpl. destruct x as [|c x]; simpl.
  - tauto.
  - split; [|discriminate]. intros H. apply app_eq_nil in H as [H _].
    contradiction.
Qed.

Lemma Substring_app_l (a b c : jsstring) :
  Substring a b -> Substring a (b ++ c).
Proof.
  intros [pre [post ->]]. exists pre, (post ++ c).
  rewrite <- !app_assoc. reflexivity.
Qed.

Lemma Substring_app_r (a b c : jsstring) :
  Substring a c -> Substring a (b ++ c).
Proof.
  intros [pre [post ->]]. exists (b ++ pre), post.
  rewrite <- !app_assoc. reflexivity.
Qed.

Lemma appendIf_shows (label x : jsstring) :
  Substring x (appendIf label (Some x)).
Proof.
  unfold appendIf. simpl. destruct x as [|c x]; simpl.
  - exists [], []. reflexivity.
  - exists label, []. rewrite app_nil_r. reflexivity.
Qed.

Lemma formatGoal_shows_description (g : Goal) :
  exists text,
    formatGoal (VGoal g) true = Some text /\ Substring (description g) text.
Proof.
  unfold formatGoal.
  cbn [view vName vDescription vLevels vDifficulty vVideoLink template].
  eexists. split; [reflexivity|].
  apply Substring_app_l.
  exists (js "**" ++ name g ++ js "**: "), [].
  rewrite app_nil_r, <- !app_assoc. reflexivity.
Qed.

(** X14.  For a record, [formatGoal] never throws; the short form is
    [**name**: description]; the full form is the short form followed by
    the optional lines, it shows each of the five fields, and it equals the
    short form exactly when levels, difficulty and video link are all
    empty. *)
Theorem formatGoal_record (g : Goal) :
  formatGoal (VGoal g) false
  = Some (js "**" ++ name g ++ js "**: " ++ description g)
  /\ exists lines,
       formatGoal (VGoal g) true
       = Some ((js "**" ++ name g ++ js "**: " ++ description g) ++ lines)
       /\ (lines = [] <-> bare g = true)
       /\ Substring (levels g) lines
       /\ Substring (difficulty g) lines
       /\ Substring (videoLink g) lines.
Proof.
  split; [reflexivity|].
  exists (appendIf LEVELS_LABEL (Some (levels g))
          ++ appendIf DIFFICULTY_LABEL (Some (difficulty g))
          ++ appendIf VIDEO_LABEL (Some (videoLink g))).
  split; [unfold formatGoal; simpl; rewrite <- !app_assoc; reflexivity|].
  split.
  - unfold bare. rewrite !andb_true_iff. split.
    + intros H. apply app_eq_nil in H as [H1 H].
      apply app_eq_nil in H as [H2 H3].
      apply appendIf_nil in H1; [|discriminate].
      apply appendIf_nil in H2; [|discriminate].
      apply appendIf_nil in H3; [|discriminate].
      rewrite H1, H2, H3. auto.
    + intros [[H1 H2] H3].
      destruct (levels g); [|discriminate].
      destruct (difficulty g); [|discriminate].
      destruct (videoLink g); [|discriminate]. reflexivity.
  - split; [|split].
    + apply Substring_app_l, appendIf_shows.
    + apply Substring_app_r, Substring_app_l, appendIf_shows.
    + apply Substring_app_r, Substring_app_r, appendIf_shows.
Qed.

(** ** The route of the first version *)

Section FirstVersion.

Variable toLowerCase : jsstring -> jsstring.
Variable sendOther : JSValue -> option Body.

Lemma IndexJs_lookup_assign (goals : Props jsstring) (k' k v : jsstring) :
  k <> PROTO ->
  lookupOwn k (IndexJs.assign goals k' v)
  = if streq k' k then Some v else lookupOwn k goals.
Proof.
  intros NP. unfold IndexJs.assign. destruct (streq k' k) eqn:E.
  - apply streq_eq in E; subst k'.
    destruct (lookupOwn k goals); [apply lookupOwn_setOwn_same|].
    apply streq_neq in NP. rewrite NP. apply lookupOwn_setOwn_same.
  - apply streq_neq in E.
    destruct (lookupOwn k' goals);
      [apply lookupOwn_setOwn_other; exact E|].
    destruct (streq k' PROTO); [reflexivity|].
    apply lookupOwn_setOwn_other; exact E.
Qed.

Lemma IndexJs_lookup_feed (rows : list Row) (goals : Props jsstring)
    (k : jsstring) :
  k <> PROTO ->
  lookupOwn k (IndexJs.feed toLowerCase rows goals)
  = match find (writes toLowerCase k) (rev rows) with
    | Some row => Some (trim (cell (Description row)))
    | None => lookupOwn k goals
    end.
Proof.
  intros NP. revert goals; induction rows as [|row rows IH]; intros goals;
    [reflexivity|].
  change (IndexJs.feed toLowerCase (row :: rows) goals)
    with (IndexJs.feed toLowerCase rows (IndexJs.onData toLowerCase row goals)).
  rewrite IH. simpl rev. rewrite find_app.
  destruct (find (writes toLowerCase k) (rev rows)); [reflexivity|].
  simpl. unfold IndexJs.onData, writes, rowKey.
  destruct (validRow row); simpl; [|reflexivity].
  rewrite IndexJs_lookup_assign by exact NP.
  destruct (streq (toLowerCase (trim (cell (Name row)))) k); reflexivity.
Qed.

(** X15.  The route [/goal] of [src/index.js] answers with the trimmed
    Description of the last valid row whose key is the trimmed, lowercased
    name; when that Description consists of whitespace only, the stored
    text is empty and the route answers 404 although the key exists. *)
Theorem IndexJs_goalHandler_found (s : jsstring) (pre post : list Row)
    (row : Row) (rnd : Q) :
  toLowerCase (trim s) <> [] ->
  toLowerCase (trim s) <> PROTO ->
  validRow row = true ->
  rowKey toLowerCase row = toLowerCase (trim s) ->
  (forall later, In later post -> validRow later = true ->
                 rowKey toLowerCase later <> toLowerCase (trim s)) ->
  run (IndexJsRoute.goalHandler toLowerCase sendOther (QString s))
      (Some (pre ++ row :: post)) rnd
  = [EvFetch;
     if isEmpty (trim (cell (Description row)))
     then EvSend 404 (Text (js "Goal '" ++ toLowerCase (trim s)
                            ++ js "' not found."))
     else EvSend 200 (Text (trim (cell (Description row))))].
Proof.
  intros NB NP V K Later.
  assert (L : lookupOwn (toLowerCase (trim s))
                (IndexJs.loadGoals toLowerCase (pre ++ row :: post))
              = Some (trim (cell (Description row)))).
  { unfold IndexJs.loadGoals. rewrite IndexJs_lookup_feed by exact NP.
    rewrite rev_app_distr. simpl rev. rewrite <- app_assoc, find_app.
    destruct (find (writes toLowerCase (toLowerCase (trim s))) (rev post))
      as [r|] eqn:F.
    - apply find_writes_some in F as [I [Vr S]].
      exfalso; exact (Later r I Vr S).
    - simpl. unfold writes at 1. rewrite V, K, streq_refl. reflexivity. }
  unfold IndexJsRoute.goalHandler.
  destruct (toLowerCase (trim s)) as [|c q] eqn:Q; [contradiction|].
  cbn [isEmpty run]. unfold IndexJsRoute.get. rewrite L. cbn [truthy].
  destruct (trim (cell (Description row))); reflexivity.
Qed.

(** X16.  The route [/goal] of [src/index.js] matches whole names only:
    when no valid row has the trimmed, lowercased name as its key, and the
    name is not one that [Object.prototype] provides, it answers 404. *)
Theorem IndexJs_goalHandler_not_found (s : jsstring) (rows : list Row)
    (rnd : Q) :
  toLowerCase (trim s) <> [] ->
  toLowerCase (trim s) <> PROTO ->
  ~ In (toLowerCase (trim s)) objectPrototypeMethods ->
  (forall row, In row rows -> validRow row = true ->
               rowKey toLowerCase row <> toLowerCase (trim s)) ->
  run (IndexJsRoute.goalHandler toLowerCase sendOther (QString s))
      (Some rows) rnd
  = [EvFetch;
     EvSend 404 (Text (js "Goal '" ++ toLowerCase (trim s)
                       ++ js "' not found."))].
Proof.
  intros NB NP NM None.
  assert (L : lookupOwn (toLowerCase (trim s))
                (IndexJs.loadGoals toLowerCase rows) = Datatypes.None).
  { unfold IndexJs.loadGoals. rewrite IndexJs_lookup_feed by exact NP.
    destruct (find (writes toLowerCase (toLowerCase (trim s))) (rev rows))
      as [r|] eqn:F; [|reflexivity].
    apply find_writes_some in F as [I [Vr S]].
    exfalso; exact (None r I Vr S). }
  unfold IndexJsRoute.goalHandler.
  destruct (toLowerCase (trim s)) as [|c q] eqn:Q; [contradiction|].
  cbn [isEmpty run]. unfold IndexJsRoute.get, objectPrototypeGet. rewrite L.
  apply streq_neq in NP. rewrite NP.
  destruct (existsb (streq (c :: q)) objectPrototypeMethods) eqn:X;
    [|reflexivity].
  apply existsb_exists in X as [m [Hm Hk]]. apply streq_eq in Hk; subst m.
  contradiction.
Qed.

End FirstVersion.

Section Versions.

Variable toLowerCase : jsstring -> jsstring.

(** X17.  A name that the first version answers is answered by the server
    too: under the conditions of X15 with a Description that is not blank,
    the route [/goal] of the server answers 200, and its text contains the
    text that the first version sends. *)
Theorem server_answers_what_first_version_answers (s : jsstring)
    (pre post : list Row) (row : Row) (rnd : Q) :
  trim s <> [] ->
  toLowerCase (trim s) <> PROTO ->
  validRow row = true ->
  rowKey toLowerCase row = toLowerCase (trim s) ->
  (forall later, In later post -> validRow later = true ->
                 rowKey toLowerCase later <> toLowerCase (trim s)) ->
  exists formatted,
    run (goalHandler toLowerCase (QString s)) (Some (pre ++ row :: post)) rnd
    = [EvFetch; EvSend 200 (Text formatted)]
    /\ Substring (trim (cell (Description row))) formatted.
Proof.
  intros NB NP V K Later.
  pose proof (getGoal_last_writer toLowerCase pre post row _ V K Later) as G.
  rewrite getGoal_spec in G.
  assert (L : lookupOwn (toLowerCase (trim s))
                (own (loadGoals toLowerCase (pre ++ row :: post)))
              = Some (rowGoal row)).
  { destruct (lookupOwn (toLowerCase (trim s))
                (own (loadGoals toLowerCase (pre ++ row :: post))));
      [exact G|].
    apply streq_neq in NP. rewrite NP in G. discriminate. }
  destruct (goalHandler_exact toLowerCase s (pre ++ row :: post) (rowGoal row)
              rnd NB L) as [formatted [F R]].
  exists formatted. split; [exact R|].
  destruct (formatGoal_shows_description (rowGoal row)) as [text [T S]].
  rewrite F in T. injection T as ->. exact S.
Qed.

End Versions.

Lemma IndexJs_goalHandler_found_witness :
  asciiLower (trim (js " Jano Skip ")) <> []
  /\ asciiLower (trim (js " Jano Skip ")) <> PROTO
  /\ validRow (Samples.row "jano skip" "   ") = true
  /\ rowKey asciiLower (Samples.row "jano skip" "   ")
     = asciiLower (trim (js " Jano Skip "))
  /\ (forall later, In later [] -> validRow later = true ->
                    rowKey asciiLower later
                    <> asciiLower (trim (js " Jano Skip ")))
  /\ run (IndexJsRoute.goalHandler asciiLower MoreSamples.sendThrows
            (QString (js " Jano Skip ")))
         (Some MoreSamples.blankDescriptionRows) 0%Q
     = [EvFetch; EvSend 404 (Text (js "Goal 'jano skip' not found."))].
Proof.
  split; [discriminate|]. split; [discriminate|]. split; [reflexivity|].
  split; [reflexivity|]. split; [intros later []|].
  apply (IndexJs_goalHandler_found asciiLower MoreSamples.sendThrows
           (js " Jano Skip ") [Samples.row "Jano Skip" "first"] []
           (Samples.row "jano skip" "   ") 0%Q);
    [discriminate | discriminate | reflexivity | reflexivity
     | intros later []].
Defined.

Lemma IndexJs_goalHandler_not_found_witness :
  asciiLower (trim (js "jano")) <> []
  /\ asciiLower (trim (js "jano")) <> PROTO
  /\ ~ In (asciiLower (trim (js "jano"))) objectPrototypeMethods
  /\ (forall row, In row MoreSamples.glitchRows -> validRow row = true ->
                  rowKey asciiLower row <> asciiLower (trim (js "jano")))
  /\ run (IndexJsRoute.goalHandler asciiLower MoreSamples.sendThrows
            (QString (js "jano")))
         (Some MoreSamples.glitchRows) 0%Q
     = [EvFetch; EvSend 404 (Text (js "Goal 'jano' not found."))].
Proof.
  assert (M : ~ In (asciiLower (trim (js "jano"))) objectPrototypeMethods).
  { intros H. vm_compute in H.
    repeat (destruct H as [H | H]; [discriminate H|]). exact H. }
  assert (R : forall row, In row MoreSamples.glitchRows ->
                validRow row = true ->
                rowKey asciiLower row <> asciiLower (trim (js "jano"))).
  { intros row [<- | [<- | [<- | []]]] _; discriminate. }
  split; [discriminate|]. split; [discriminate|]. split; [exact M|].
  split; [exact R|].
  apply (IndexJs_goalHandler_not_found asciiLower MoreSamples.sendThrows
           (js "jano") MoreSamples.glitchRows 0%Q);
    [discriminate | discriminate | exact M | exact R].
Defined.

Lemma server_answers_what_first_version_answers_witness :
  trim (js "Jano Skip") <> []
  /\ asciiLower (trim (js "Jano Skip")) <> PROTO
  /\ validRow (Samples.row " jano skip " "second") = true
  /\ rowKey asciiLower (Samples.row " jano skip " "second")
     = asciiLower (trim (js "Jano Skip"))
  /\ (forall later, In later [] -> validRow later = true ->
                    rowKey asciiLower later
                    <> asciiLower (trim (js "Jano Skip")))
  /\ exists formatted,
       run (goalHandler asciiLower (QString (js "Jano Skip")))
           (Some Samples.duplicateRows) 0%Q
       = [EvFetch; EvSend 200 (Text formatted)]
       /\ Substring (js "second") formatted.
Proof.
  split; [discriminate|]. split; [discriminate|]. split; [reflexivity|].
  split; [reflexivity|]. split; [intros later []|].
  apply (server_answers_what_first_version_answers asciiLower
           (js "Jano Skip")
           [Samples.row "Jano Skip" "first"; Samples.row "" "no name"] []
           (Samples.row " jano skip " "second") 0%Q);
    [discriminate | discriminate | reflexivity | reflexivity
     | intros later []].
Defined.

Example IndexJs_goalHandler_answers :
  run (IndexJsRoute.goalHandler asciiLower MoreSamples.sendThrows
         (QString (js " Jano Skip ")))
      (Some Samples.duplicateRows) 0%Q
  = [EvFetch; EvSend 200 (Text (js "second"))].
Proof. reflexivity. Qed.

(** ** Fetches and round trips *)

Section FetchAndRoundTrip.

Variable toLowerCase : jsstring -> jsstring.

(** X18.  No route fetches the sheet twice for one request: the listing,
    difficulty and random routes fetch exactly once, and the two lookup
    routes fetch once for a name that is not blank and not at all for a
    blank one. *)
Theorem routes_fetch_once (s level : jsstring) (sheet : option (list Row))
    (rnd : Q) :
  fetches (goalHandler toLowerCase (QString s)) sheet rnd
    = (if forallb isWhiteSpace s then 0 else 1)%nat
  /\ fetches (compactHandler toLowerCase (QString s)) sheet rnd
     = (if forallb isWhiteSpace s then 0 else 1)%nat
  /\ fetches (goalsHandler toLowerCase) sheet rnd = 1%nat
  /\ fetches (difficultyHandler toLowerCase level) sheet rnd = 1%nat
  /\ fetches (randomHandler toLowerCase) sheet rnd = 1%nat.
Proof.
  rewrite <- isEmpty_trim. split; [|split; [|split; [|split]]].
  - unfold goalHandler. destruct (isEmpty (trim s)); [reflexivity|].
    cbn [fetches]. destruct sheet as [rows|]; [|reflexivity].
    destruct (searchGoals toLowerCase (loadGoals toLowerCase rows) (trim s))
      as [|m [|m' rest]]; [reflexivity| |].
    + destruct (formatGoal m true); reflexivity.
    + destruct (names (firstn 5 (m :: m' :: rest))); reflexivity.
  - unfold compactHandler. destruct (isEmpty (trim s)); [reflexivity|].
    cbn [fetches]. destruct sheet as [rows|]; [|reflexivity].
    destruct (searchGoals toLowerCase (loadGoals toLowerCase rows) (trim s))
      as [|m [|m' rest]]; [reflexivity| |].
    + destruct (compactText m); reflexivity.
    + destruct (names (firstn 3 (m :: m' :: rest))); reflexivity.
  - unfold goalsHandler. destruct sheet; reflexivity.
  - unfold difficultyHandler. cbn [fetches].
    destruct sheet as [rows|]; [|reflexivity].
    destruct (List.length (filteredGoals (loadGoals toLowerCase rows) level)
              =? 0)%nat; reflexivity.
  - unfold randomHandler. cbn [fetches].
    destruct sheet as [rows|]; [|reflexivity]. cbn [fetches].
    destruct (formatGoal (pick (ObjectValues (loadGoals toLowerCase rows)) rnd)
                true); reflexivity.
Qed.

(** X19.  Load and lookup round trip: asking [/goal] for the Name of any
    valid row of the sheet, exactly as the sheet has it, answers 200 with
    the full format of a record whose name lowercases to that row's key
    (the record of the last row with the key). *)
Theorem goalHandler_finds_sheet_names (rows : list Row) (row : Row)
    (rnd : Q) :
  In row rows ->
  validRow row = true ->
  trim (cell (Name row)) <> [] ->
  rowKey toLowerCase row <> PROTO ->
  exists g formatted,
    formatGoal (VGoal g) true = Some formatted
    /\ toLowerCase (name g) = rowKey toLowerCase row
    /\ run (goalHandler toLowerCase (QString (cell (Name row))))
           (Some rows) rnd
       = [EvFetch; EvSend 200 (Text formatted)].
Proof.
  intros I V NB NP.
  destruct (proj2 (getGoal_some_iff toLowerCase rows (rowKey toLowerCase row)))
    as [g G]; [exists row; auto|].
  pose proof (getGoal_provenance toLowerCase rows _ g G) as [r [_ [_ [K ->]]]].
  rewrite getGoal_spec in G.
  assert (L : lookupOwn (toLowerCase (trim (cell (Name row))))
                (own (loadGoals toLowerCase rows)) = Some (rowGoal r)).
  { fold (rowKey toLowerCase row).
    destruct (lookupOwn (rowKey toLowerCase row)
                (own (loadGoals toLowerCase rows))); [exact G|].
    apply streq_neq in NP. rewrite NP in G. discriminate. }
  destruct (goalHandler_exact toLowerCase (cell (Name row)) rows (rowGoal r)
              rnd NB L) as [formatted [F R]].
  exists (rowGoal r), formatted. split; [exact F|]. split; [exact K | exact R].
Qed.

End FetchAndRoundTrip.

Lemma goalHandler_finds_sheet_names_witness :
  In (Samples.row "Jano Skip" "first") Samples.duplicateRows
  /\ validRow (Samples.row "Jano Skip" "first") = true
  /\ trim (cell (Name (Samples.row "Jano Skip" "first"))) <> []
  /\ rowKey asciiLower (Samples.row "Jano Skip" "first") <> PROTO
  /\ exists g formatted,
       formatGoal (VGoal g) true = Some formatted
       /\ asciiLower (name g)
          = rowKey asciiLower (Samples.row "Jano Skip" "first")
       /\ run (goalHandler asciiLower
                 (QString (cell (Name (Samples.row "Jano Skip" "first")))))
              (Some Samples.duplicateRows) 0%Q
          = [EvFetch; EvSend 200 (Text formatted)].
Proof.
  assert (I : In (Samples.row "Jano Skip" "first") Samples.duplicateRows)
    by (left; reflexivity).
  assert (NB : trim (cell (Name (Samples.row "Jano Skip" "first"))) <> [])
    by discriminate.
  assert (NP : rowKey asciiLower (Samples.row "Jano Skip" "first") <> PROTO)
    by discriminate.
  split; [exact I|]. split; [reflexivity|]. split; [exact NB|].
  split; [exact NP|].
  exact (goalHandler_finds_sheet_names asciiLower Samples.duplicateRows
           (Samples.row "Jano Skip" "first") 0%Q I eq_refl NB NP).
Defined.

Example goalHandler_finds_last_row :
  run (goalHandler asciiLower (QString (js "Jano Skip")))
      (Some Samples.duplicateRows) 0%Q
  = [EvFetch; EvSend 200 (Text (js "**jano skip**: second"))].
Proof. reflexivity. Qed.
